(** * terminal-time-tracker: the tracking state machine, the task store,
      the goal registry and the aggregation engine, embedded from the
      JavaScript sources (taskManager, timeTracker, goals, analytics).

    Conventions of the embedding.

    - Timestamps and durations are JavaScript numbers holding integral
      millisecond counts; they are modelled as [Z].  Timestamps are stored
      as ISO-8601 strings and read back with [new Date(iso).getTime()],
      which is the identity on millisecond counts of valid dates, so the
      stored value is the [Z] itself.
    - The two JSON files of [storage] are the state: the task object
      ([tasks.json]) and the tracking record ([tracking.json]).  Every
      operation loads, computes and saves; the clock reading [new Date()]
      of an operation is its [now] argument.
    - A JSON object used as a dictionary is a [gmap] of its own properties.
      Reading [obj[key]] goes through [JS.get], which also finds the
      properties every plain object inherits from [Object.prototype].
      Writing [obj[key] = value] is an insertion, as it is in JavaScript for
      every key but [__proto__]; no operation stores a task under a property
      name of [Object.prototype] ([reachable_ok]).  The enumeration order of
      [Object.values] is not modelled: only order-insensitive facts are
      derived from it.
    - Strings are sequences of code units below 256 ([string]).
    - The one place where a non-integral number is computed, the goal
      percentage, is modelled with binary64 floats ([PrimFloat]). *)

From Stdlib Require Import ZArith Lia Floats Ascii.
From stdpp Require Import gmap strings list fin_maps.

Local Open Scope string_scope.
Local Open Scope Z_scope.

(** ** JavaScript values and objects *)

Module JS.

(** The own property names of [Object.prototype] (Node.js); each is
    reachable from every object created by a literal or by [JSON.parse]. *)
Definition Object_prototype_keys : list string :=
  [ "constructor"; "__defineGetter__"; "__defineSetter__"; "hasOwnProperty";
    "__lookupGetter__"; "__lookupSetter__"; "isPrototypeOf";
    "propertyIsEnumerable"; "toString"; "valueOf"; "__proto__";
    "toLocaleString" ].

(** What [obj[key]] evaluates to: the object's own value, a built-in found
    on the prototype (a function, or [Object.prototype] itself for
    [__proto__]: always truthy), or [undefined]. *)
Inductive Slot (A : Type) : Type :=
| Own (a : A)
| Inherited
| Undefined.
Global Arguments Own {A} a.
Global Arguments Inherited {A}.
Global Arguments Undefined {A}.

Definition inherited (k : string) : bool :=
  bool_decide (k ∈ Object_prototype_keys).

Definition get {A : Type} (o : gmap string A) (k : string) : Slot A :=
  match o !! k with
  | Some a => Own a
  | None => if inherited k then Inherited else Undefined
  end.

(** Truthiness of a slot whose own values are objects. *)
Definition truthy {A : Type} (s : Slot A) : bool :=
  match s with
  | Undefined => false
  | _ => true
  end.

(** Truthiness of a nullable string: [null] and the empty string are falsy. *)
Definition truthy_str (o : option string) : option string :=
  match o with
  | Some s => if bool_decide (s = "") then None else Some s
  | None => None
  end.

(** [new Date(x).getTime()] for a stored timestamp; [new Date(null)] is the epoch. *)
Definition Date_getTime (o : option Z) : Z := default 0 o.

(** White space removed by [String.prototype.trim], among code units below 256. *)
Definition is_white_space (c : ascii) : bool :=
  let n := Z.of_nat (nat_of_ascii c) in
  ((9 <=? n) && (n <=? 13)) || (n =? 32) || (n =? 160).

Fixpoint all_chars (p : ascii -> bool) (s : string) : bool :=
  match s with
  | EmptyString => true
  | String c s' => p c && all_chars p s'
  end.

(** [s.trim() === ''] *)
Definition trim_is_empty (s : string) : bool := all_chars is_white_space s.

(** [Number(z)]: the binary64 nearest to the integer [z]. *)
Definition Number (z : Z) : float :=
  SF2Prim (binary_normalize prec emax z 0 false).

(** [Math.round]: the integer closest to [x], ties towards +infinity;
    the result is given as the integer it denotes.  Not-a-number and the
    infinities (which [Math.round] returns unchanged) are mapped to 0. *)
Definition Math_round (x : float) : Z :=
  match Prim2SF x with
  | S754_finite s m e =>
      let sm := if s then Z.neg m else Z.pos m in
      if 0 <=? e then sm * 2 ^ e
      else (2 * sm + 2 ^ (- e)) / 2 ^ (1 - e)
  | _ => 0
  end.

End JS.

(** ** Data model *)

Module Session.
Record t : Type := mk
  { task : string;
    startTime : Z;
    endTime : Z;
    duration : Z }.
End Session.

Module Task.
Record t : Type := mk
  { id : string;
    name : string;
    created : Z;
    totalTime : Z;
    sessions : list Session.t;
    (** the optional [goals] property: period name to target duration *)
    goals : option (gmap string Z) }.
End Task.

Module Tracking.
Record t : Type := mk
  { currentTask : option string;
    startTime : option Z;
    pausedTime : option Z;
    isPaused : bool;
    sessions : list Session.t }.

(** What [loadTracking] returns when there is no tracking file. *)
Definition initial : t := mk None None None false [].
End Tracking.

Record Store : Type := mkStore
  { tasks : gmap string Task.t;
    tracking : Tracking.t }.

Definition initial_store : Store := mkStore ∅ Tracking.initial.

(** The [error] strings of the failure results, one constructor per message. *)
Inductive Error : Type :=
| TaskNameEmpty                      (* 'Task name cannot be empty' *)
| TaskNameInvalid                    (* 'Task name can only contain letters, ...' *)
| TaskAlreadyExists (taskName : string)
| TaskDoesNotExist (taskId : string)
| AlreadyTracking (current : string)
| NoActiveSession                    (* 'No active tracking session' *)
| NoActiveSessionToPause
| AlreadyPaused                      (* 'Tracking is already paused' *)
| NoPausedSession                    (* 'No paused session to resume' *)
| InvalidGoalPeriod
| GoalDurationNotPositive
| NoSuchGoal (taskId period : string)
| NoGoals (taskId : string).

(** [{ success: true, ... }] with its payload, or [{ success: false, error }]. *)
Inductive Result (A : Type) : Type :=
| Success (payload : A)
| Failure (error : Error).
Arguments Success {A} payload.
Arguments Failure {A} error.

Definition succeeded {A : Type} (r : Result A) : bool :=
  match r with
  | Success _ => true
  | Failure _ => false
  end.

Fixpoint sum_durations (l : list Session.t) : Z :=
  match l with
  | [] => 0
  | s :: l' => Session.duration s + sum_durations l'
  end.

(** ** taskManager *)

Module TaskManager.

Definition is_name_char (c : ascii) : bool :=
  let n := Z.of_nat (nat_of_ascii c) in
  ((97 <=? n) && (n <=? 122)) || ((65 <=? n) && (n <=? 90))
  || ((48 <=? n) && (n <=? 57)) || (n =? 95) || (n =? 45).

(** [/^[a-zA-Z0-9_-]+$/.test(name)], after the guard on the empty string. *)
Definition isValidTaskName (name : string) : bool :=
  if bool_decide (name = "") then false
  else JS.all_chars is_name_char name.

Definition createTask (taskName : string) (now : Z) (ts : gmap string Task.t)
  : Result Task.t * gmap string Task.t :=
  if bool_decide (taskName = "") || JS.trim_is_empty taskName then
    (Failure TaskNameEmpty, ts)
  else if negb (isValidTaskName taskName) then
    (Failure TaskNameInvalid, ts)
  else if JS.truthy (JS.get ts taskName) then
    (Failure (TaskAlreadyExists taskName), ts)
  else
    let newTask := Task.mk taskName taskName now 0 [] None in
    (Success newTask, <[taskName := newTask]> ts).

(** [tasks[taskId] || null] *)
Definition getTask (taskId : string) (ts : gmap string Task.t) : JS.Slot Task.t :=
  JS.get ts taskId.

(** [delete tasks[taskId]] removes an own property and is a no-op on an
    inherited one. *)
Definition deleteTask (taskId : string) (ts : gmap string Task.t)
  : Result unit * gmap string Task.t :=
  if negb (JS.truthy (JS.get ts taskId)) then
    (Failure (TaskDoesNotExist taskId), ts)
  else
    (Success tt, delete taskId ts).

End TaskManager.

(** ** timeTracker *)

Module TimeTracker.
Import TaskManager.

Definition startTracking (taskId : string) (now : Z) (st : Store)
  : Result Z * Store :=
  if negb (JS.truthy (getTask taskId (tasks st))) then
    (Failure (TaskDoesNotExist taskId), st)
  else
    match JS.truthy_str (Tracking.currentTask (tracking st)) with
    | Some current => (Failure (AlreadyTracking current), st)
    | None =>
        let newTracking :=
          Tracking.mk (Some taskId) (Some now) None false
                      (Tracking.sessions (tracking st)) in
        (Success now, mkStore (tasks st) newTracking)
    end.

(** The duration [stopTracking] computes at clock reading [endTime]. *)
Definition stop_duration (tr : Tracking.t) (endTime : Z) : Z :=
  let startTime := JS.Date_getTime (Tracking.startTime tr) in
  let duration := endTime - startTime in
  match Tracking.pausedTime tr with
  | Some pausedStart => duration - (endTime - pausedStart)
  | None => duration
  end.

(** The payload is [(duration, session)].  When the current task is found
    only on the prototype chain, the session is pushed onto the built-in
    object and [tasks[currentTask] = task] stores a value that
    [JSON.stringify] leaves out: the saved task object is unchanged. *)
Definition stopTracking (now : Z) (st : Store)
  : Result (Z * Session.t) * Store :=
  let tr := tracking st in
  match JS.truthy_str (Tracking.currentTask tr) with
  | None => (Failure NoActiveSession, st)
  | Some current =>
      let endTime := now in
      let startTime := JS.Date_getTime (Tracking.startTime tr) in
      let duration := stop_duration tr endTime in
      let session := Session.mk current startTime endTime duration in
      let tasks' :=
        match getTask current (tasks st) with
        | JS.Own task =>
            let task' :=
              Task.mk (Task.id task) (Task.name task) (Task.created task)
                      (Task.totalTime task + duration)
                      (Task.sessions task ++ [session])
                      (Task.goals task) in
            <[current := task']> (tasks st)
        | JS.Inherited => tasks st
        | JS.Undefined => tasks st
        end in
      let clearedTracking :=
        Tracking.mk None None None false (Tracking.sessions tr) in
      (Success (duration, session), mkStore tasks' clearedTracking)
  end.

Definition pauseTracking (now : Z) (st : Store) : Result unit * Store :=
  let tr := tracking st in
  match JS.truthy_str (Tracking.currentTask tr) with
  | None => (Failure NoActiveSessionToPause, st)
  | Some _ =>
      if Tracking.isPaused tr then (Failure AlreadyPaused, st)
      else
        let pausedTracking :=
          Tracking.mk (Tracking.currentTask tr) (Tracking.startTime tr)
                      (Some now) true (Tracking.sessions tr) in
        (Success tt, mkStore (tasks st) pausedTracking)
  end.

Definition resumeTracking (now : Z) (st : Store) : Result unit * Store :=
  let tr := tracking st in
  match JS.truthy_str (Tracking.currentTask tr) with
  | None => (Failure NoActiveSession, st)
  | Some _ =>
      if negb (Tracking.isPaused tr) then (Failure NoPausedSession, st)
      else
        let pausedStart := JS.Date_getTime (Tracking.pausedTime tr) in
        let resumeTime := now in
        let pausedDuration := resumeTime - pausedStart in
        let originalStart := JS.Date_getTime (Tracking.startTime tr) in
        let adjustedStart := originalStart + pausedDuration in
        let resumedTracking :=
          Tracking.mk (Tracking.currentTask tr) (Some adjustedStart)
                      None false (Tracking.sessions tr) in
        (Success tt, mkStore (tasks st) resumedTracking)
  end.

End TimeTracker.

(** ** The calendar: date-fns and the local-time methods of [Date]

    The interval functions come from the date-fns package and from the
    JavaScript [Date] object, in the local time zone of the process.  The
    sources use them through this interface; [Utc] below implements it for
    a process whose local time zone is UTC. *)

Class Calendar : Type :=
  { startOfDay : Z -> Z;
    endOfDay : Z -> Z;
    (** [startOfWeek(d, { weekStartsOn: 1 })] and [endOfWeek] likewise *)
    startOfWeek : Z -> Z;
    endOfWeek : Z -> Z;
    startOfMonth : Z -> Z;
    endOfMonth : Z -> Z;
    startOfYear : Z -> Z;
    endOfYear : Z -> Z;
    (** [subDays(d, n)] *)
    subDays : Z -> Z -> Z;
    (** [eachDayOfInterval({ start, end })] and its siblings; weeks start on Monday *)
    eachDayOfInterval : Z -> Z -> list Z;
    eachWeekOfInterval : Z -> Z -> list Z;
    eachMonthOfInterval : Z -> Z -> list Z;
    getFullYear : Z -> Z;
    getMonth : Z -> Z;
    getDate : Z -> Z;
    (** [new Date(year, monthIndex, day)] *)
    Date_of : Z -> Z -> Z -> Z }.

(** [isWithinInterval(date, { start, end })] for [start <= end]: both ends belong. *)
Definition isWithinInterval (date start end_ : Z) : bool :=
  (start <=? date) && (date <=? end_).

(** The four members of [VALID_PERIODS].  The functions that receive a
    period after validation take it at this type. *)
Inductive Period : Type := daily | weekly | monthly | yearly.

Definition Period_name (p : Period) : string :=
  match p with
  | daily => "daily"
  | weekly => "weekly"
  | monthly => "monthly"
  | yearly => "yearly"
  end.

Definition VALID_PERIODS : list string := ["daily"; "weekly"; "monthly"; "yearly"].

(** ** goals *)

Module Goals.
Import TaskManager.

Definition isValidGoalPeriod (period : string) : bool :=
  bool_decide (period ∈ VALID_PERIODS).

(** The goals of every task that has the property. *)
Definition loadGoals (ts : gmap string Task.t) : gmap string (gmap string Z) :=
  omap Task.goals ts.

Definition with_goals (g : option (gmap string Z)) (t : Task.t) : Task.t :=
  Task.mk (Task.id t) (Task.name t) (Task.created t) (Task.totalTime t)
          (Task.sessions t) g.

(** Every task loses its [goals] property, then every task named by an
    own key of [goals] receives that entry. *)
Definition saveGoals (goals : gmap string (gmap string Z))
    (ts : gmap string Task.t) : gmap string Task.t :=
  map_imap (fun taskId t => Some (with_goals (goals !! taskId) t)) ts.

(** The payload tells whether the message says 'updated' ([true]) or 'set'.
    When [goals[taskId]] is a built-in found on the prototype chain, the
    duration is written onto that built-in and nothing of it is saved. *)
Definition setGoal (taskId period : string) (duration : Z)
    (ts : gmap string Task.t) : Result bool * gmap string Task.t :=
  if negb (isValidGoalPeriod period) then (Failure InvalidGoalPeriod, ts)
  else if duration <=? 0 then (Failure GoalDurationNotPositive, ts)
  else if negb (JS.truthy (getTask taskId ts)) then
    (Failure (TaskDoesNotExist taskId), ts)
  else
    let goals := loadGoals ts in
    match JS.get goals taskId with
    | JS.Inherited => (Success false, saveGoals goals ts)
    | JS.Own taskGoals =>
        let isUpdate := bool_decide (is_Some (taskGoals !! period)) in
        (Success isUpdate,
         saveGoals (<[taskId := <[period := duration]> taskGoals]> goals) ts)
    | JS.Undefined =>
        (Success false,
         saveGoals (<[taskId := {[period := duration]}]> goals) ts)
    end.

(** [removeGoal(taskId, period = null)].  When [goals[taskId]] is a
    built-in found on the prototype chain, the answer depends on the
    properties of that built-in, which are not tabulated here: the result
    is then [None], and nothing of it is saved.  A [period] that names an
    inherited property of the task's goals is truthy and deleting it
    removes nothing. *)
Definition removeGoal (taskId : string) (period : option string)
    (ts : gmap string Task.t) : option (Result unit) * gmap string Task.t :=
  let goals := loadGoals ts in
  match JS.truthy_str period with
  | Some p =>
      match JS.get goals taskId with
      | JS.Undefined => (Some (Failure (NoSuchGoal taskId p)), ts)
      | JS.Inherited => (None, ts)
      | JS.Own taskGoals =>
          let falsy :=
            match JS.get taskGoals p with
            | JS.Undefined => true
            | JS.Inherited => false
            | JS.Own g => g =? 0
            end in
          if falsy then (Some (Failure (NoSuchGoal taskId p)), ts)
          else
            let taskGoals' := delete p taskGoals in
            let goals' :=
              if bool_decide (taskGoals' = ∅) then delete taskId goals
              else <[taskId := taskGoals']> goals in
            (Some (Success tt), saveGoals goals' ts)
      end
  | None =>
      match JS.get goals taskId with
      | JS.Undefined => (Some (Failure (NoGoals taskId)), ts)
      | _ => (Some (Success tt), saveGoals (delete taskId goals) ts)
      end
  end.

(** [goals[taskId] || {}], as the mapping of its own properties; a built-in
    found on the prototype chain has none of the period properties. *)
Definition getTaskGoals (taskId : string) (ts : gmap string Task.t)
  : gmap string Z :=
  match JS.get (loadGoals ts) taskId with
  | JS.Own taskGoals => taskGoals
  | _ => ∅
  end.

Section WithCalendar.
Context `{Calendar}.

Definition getTimeRangeForPeriod (period : Period) (targetDate : Z) : Z * Z :=
  match period with
  | daily => (startOfDay targetDate, endOfDay targetDate)
  | weekly => (startOfWeek targetDate, endOfWeek targetDate)
  | monthly => (startOfMonth targetDate, endOfMonth targetDate)
  | yearly => (startOfYear targetDate, endOfYear targetDate)
  end.

Definition in_range (range : Z * Z) (session : Session.t) : bool :=
  isWithinInterval (Session.startTime session) (fst range) (snd range).

(** A task found only on the prototype chain has no [sessions]. *)
Definition getActualTimeForPeriod (taskId : string) (period : Period)
    (targetDate : Z) (ts : gmap string Task.t) : Z :=
  match getTask taskId ts with
  | JS.Own task =>
      let range := getTimeRangeForPeriod period targetDate in
      sum_durations (List.filter (in_range range) (Task.sessions task))
  | _ => 0
  end.

Record GoalProgress : Type := mkGoalProgress
  { gp_period : Period;
    goalTime : Z;
    actualTime : Z;
    percentage : Z;
    isAchieved : bool;
    remainingTime : Z;
    overTime : Z }.

(** [Math.round((actualTime / goalTime) * 100)] *)
Definition percentage_of (actualTime goalTime : Z) : Z :=
  JS.Math_round (JS.Number actualTime / JS.Number goalTime * JS.Number 100)%float.

(** [None] is the [null] returned when there is no goal. *)
Definition getGoalProgress (taskId : string) (period : Period)
    (targetDate : Z) (ts : gmap string Task.t) : option GoalProgress :=
  match getTaskGoals taskId ts !! Period_name period with
  | None => None
  | Some goalTime =>
      if goalTime =? 0 then None
      else
        let actualTime := getActualTimeForPeriod taskId period targetDate ts in
        Some (mkGoalProgress period goalTime actualTime
                (percentage_of actualTime goalTime)
                (goalTime <=? actualTime)
                (Z.max 0 (goalTime - actualTime))
                (if goalTime <? actualTime then actualTime - goalTime else 0))
  end.

Record Streak : Type := mkStreak
  { currentStreak : Z;
    longestStreak : Z;
    totalAchieved : Z }.

Definition checkDate (period : Period) (today i : Z) : Z :=
  match period with
  | daily => subDays today i
  | weekly => subDays today (i * 7)
  | monthly => Date_of (getFullYear today) (getMonth today - i) (getDate today)
  | yearly => Date_of (getFullYear today - i) (getMonth today) (getDate today)
  end.

(** The loop variables [currentStreak], [longestStreak], [totalAchieved],
    [tempStreak] and one iteration of the loop body. *)
Record StreakVars : Type := mkVars
  { v_current : Z; v_longest : Z; v_total : Z; v_temp : Z }.

Definition streak_iter (achieved : bool) (i : Z) (v : StreakVars) : StreakVars :=
  if achieved then
    let total := v_total v + 1 in
    let temp := v_temp v + 1 in
    let current := if i =? 0 then temp else v_current v in
    mkVars current (Z.max (v_longest v) temp) total temp
  else
    let current := if i =? 0 then 0 else v_current v in
    mkVars current (v_longest v) (v_total v) 0.

Definition streak_loop (achieved : Z -> bool) (indices : list Z)
    (v : StreakVars) : StreakVars :=
  fold_left (fun v i => streak_iter (achieved i) i v) indices v.

Definition getGoalStreak (taskId : string) (period : Period)
    (today : Z) (ts : gmap string Task.t) : Streak :=
  match getTaskGoals taskId ts !! Period_name period with
  | None => mkStreak 0 0 0
  | Some goalTime =>
      if goalTime =? 0 then mkStreak 0 0 0
      else
        let achieved i :=
          goalTime <=?
            getActualTimeForPeriod taskId period (checkDate period today i) ts in
        let v := streak_loop achieved (seqZ 0 30) (mkVars 0 0 0 0) in
        mkStreak (v_current v) (v_longest v) (v_total v)
  end.

End WithCalendar.

End Goals.

(** ** analytics *)

(** [Object.values(obj)], in an unspecified order. *)
Definition Object_values {A : Type} (o : gmap string A) : list A :=
  (map_to_list o).*2.

Module Group.
(** An entry of [groupSessionsByTask]'s result. *)
Record t : Type := mk
  { name : string;
    totalTime : Z;
    sessions : list Session.t }.
End Group.

Module Bucket.
(** An entry of [dailyBreakdown], [weeklyBreakdown] or [monthlyBreakdown]:
    the sub-interval ([date], [weekStart]/[weekEnd], [month]), its total
    and its sessions grouped by task. *)
Record t : Type := mk
  { first : Z;
    last : Z;
    totalTime : Z;
    tasks : gmap string Group.t }.
End Bucket.

Module Report.
(** The analytics results, without the [period] label.  [breakdown] is
    [dailyBreakdown], [weeklyBreakdown] or [monthlyBreakdown], and is
    empty for the daily report, which has none. *)
Record t : Type := mk
  { startDate : Z;
    endDate : Z;
    totalTime : Z;
    tasks : list Group.t;
    breakdown : list Bucket.t }.
End Report.

Module Analytics.

Definition filterSessionsByDateRange (sessions : list Session.t)
    (startDate endDate : Z) : list Session.t :=
  List.filter
    (fun session => isWithinInterval (Session.startTime session) startDate endDate)
    sessions.

(** The body of the [forEach] in [groupSessionsByTask].  When
    [grouped[session.task]] is a built-in found on the prototype chain it
    has no [sessions] array and [push] throws a [TypeError]: [None]. *)
Definition group_session (grouped : gmap string Group.t) (session : Session.t)
  : option (gmap string Group.t) :=
  let key := Session.task session in
  match JS.get grouped key with
  | JS.Undefined =>
      Some (<[key := Group.mk key (0 + Session.duration session) [session]]> grouped)
  | JS.Own g =>
      Some (<[key := Group.mk (Group.name g)
                              (Group.totalTime g + Session.duration session)
                              (Group.sessions g ++ [session])]> grouped)
  | JS.Inherited => None
  end.

Fixpoint group_from (grouped : gmap string Group.t) (sessions : list Session.t)
  : option (gmap string Group.t) :=
  match sessions with
  | [] => Some grouped
  | session :: rest =>
      match group_session grouped session with
      | Some grouped' => group_from grouped' rest
      | None => None
      end
  end.

Definition groupSessionsByTask (sessions : list Session.t)
  : option (gmap string Group.t) :=
  group_from ∅ sessions.

(** [Array.prototype.sort] with [(a, b) => b.totalTime - a.totalTime]:
    a stable sort by descending total. *)
Fixpoint insert_desc (g : Group.t) (l : list Group.t) : list Group.t :=
  match l with
  | [] => [g]
  | h :: l' =>
      if Group.totalTime h <=? Group.totalTime g then g :: l
      else h :: insert_desc g l'
  end.

Definition sort_desc (l : list Group.t) : list Group.t :=
  foldr insert_desc [] l.

Definition sum_groups (l : list Group.t) : Z :=
  foldr (fun g acc => Group.totalTime g + acc) 0 l.

(** [reduce((sum, task) => sum + task.totalTime, 0)] over the groups. *)
Definition total_of_groups (grouped : gmap string Group.t) : Z :=
  fold_left (fun sum g => sum + Group.totalTime g) (Object_values grouped) 0.

(** The sessions of all tasks, collected into [allSessions]. *)
Definition allSessions (ts : gmap string Task.t) : list Session.t :=
  concat (Task.sessions <$> Object_values ts).

(** The entry of a breakdown for the sub-interval [first .. last] of the
    sessions of the report's interval. *)
Definition bucket (sessions : list Session.t) (first last : Z)
  : option Bucket.t :=
  let subSessions := filterSessionsByDateRange sessions first last in
  let subTotal :=
    fold_left (fun sum session => sum + Session.duration session) subSessions 0 in
  grouped ← groupSessionsByTask subSessions;
  Some (Bucket.mk first last subTotal grouped).

(** The part the four reports share: filter, group, total, rank; then the
    breakdown over the given sub-intervals. *)
Definition report (ts : gmap string Task.t) (startDate endDate : Z)
    (subIntervals : list (Z * Z)) : option Report.t :=
  let sessions := filterSessionsByDateRange (allSessions ts) startDate endDate in
  groupedByTask ← groupSessionsByTask sessions;
  let totalTime := total_of_groups groupedByTask in
  let taskArray := sort_desc (Object_values groupedByTask) in
  breakdown ← mapM (fun iv => bucket sessions (fst iv) (snd iv)) subIntervals;
  Some (Report.mk startDate endDate totalTime taskArray breakdown).

Section WithCalendar.
Context `{Calendar}.

Definition getDailyAnalytics (targetDate : Z) (ts : gmap string Task.t)
  : option Report.t :=
  report ts (startOfDay targetDate) (endOfDay targetDate) [].

Definition days_of_week (weekStart weekEnd : Z) : list (Z * Z) :=
  (fun day => (startOfDay day, endOfDay day)) <$> eachDayOfInterval weekStart weekEnd.

Definition getWeeklyAnalytics (targetDate : Z) (ts : gmap string Task.t)
  : option Report.t :=
  let weekStart := startOfWeek targetDate in
  let weekEnd := endOfWeek targetDate in
  report ts weekStart weekEnd (days_of_week weekStart weekEnd).

Definition weeks_of_month (monthStart monthEnd : Z) : list (Z * Z) :=
  (fun weekStart => (weekStart, endOfWeek weekStart))
    <$> eachWeekOfInterval monthStart monthEnd.

Definition getMonthlyAnalytics (targetDate : Z) (ts : gmap string Task.t)
  : option Report.t :=
  let monthStart := startOfMonth targetDate in
  let monthEnd := endOfMonth targetDate in
  report ts monthStart monthEnd (weeks_of_month monthStart monthEnd).

Definition months_of_year (yearStart yearEnd : Z) : list (Z * Z) :=
  (fun monthStart => (monthStart, endOfMonth monthStart))
    <$> eachMonthOfInterval yearStart yearEnd.

Definition getYearlyAnalytics (targetDate : Z) (ts : gmap string Task.t)
  : option Report.t :=
  let yearStart := startOfYear targetDate in
  let yearEnd := endOfYear targetDate in
  report ts yearStart yearEnd (months_of_year yearStart yearEnd).

End WithCalendar.

End Analytics.

(** ** The calendar of a process whose local time zone is UTC *)

Module Utc.

Definition dayMs : Z := 86400000.

(** Days since 1970-01-01 of the proleptic Gregorian date [y]-[m]-[d], [m] from 1. *)
Definition days_from_civil (y m d : Z) : Z :=
  let y' := if m <=? 2 then y - 1 else y in
  let era := y' / 400 in
  let yoe := y' - era * 400 in
  let doy := (153 * (if 2 <? m then m - 3 else m + 9) + 2) / 5 + d - 1 in
  let doe := yoe * 365 + yoe / 4 - yoe / 100 + doy in
  era * 146097 + doe - 719468.

(** The date (year, month from 1, day) of a day count. *)
Definition civil_from_days (z : Z) : Z * Z * Z :=
  let z' := z + 719468 in
  let era := z' / 146097 in
  let doe := z' - era * 146097 in
  let yoe := (doe - doe / 1460 + doe / 36524 - doe / 146096) / 365 in
  let doy := doe - (365 * yoe + yoe / 4 - yoe / 100) in
  let mp := (5 * doy + 2) / 153 in
  let d := doy - (153 * mp + 2) / 5 + 1 in
  let m := if mp <? 10 then mp + 3 else mp - 9 in
  let y := yoe + era * 400 in
  (if m <=? 2 then y + 1 else y, m, d).

Definition year_of (t : Z) : Z := (civil_from_days (t / dayMs)).1.1.
Definition month_of (t : Z) : Z := (civil_from_days (t / dayMs)).1.2.
Definition day_of (t : Z) : Z := (civil_from_days (t / dayMs)).2.

(** Months counted from year 0: the start of month number [i]. *)
Definition month_index (t : Z) : Z := year_of t * 12 + (month_of t - 1).
Definition month_start (i : Z) : Z :=
  days_from_civil (i / 12) (i mod 12 + 1) 1 * dayMs.

Definition week_start (t : Z) : Z :=
  let d := t / dayMs in (d - (d + 3) mod 7) * dayMs.

#[export] Instance calendar : Calendar :=
  {| startOfDay t := t / dayMs * dayMs;
     endOfDay t := t / dayMs * dayMs + dayMs - 1;
     startOfWeek := week_start;
     endOfWeek t := week_start t + 7 * dayMs - 1;
     startOfMonth t := month_start (month_index t);
     endOfMonth t := month_start (month_index t + 1) - 1;
     startOfYear t := month_start (year_of t * 12);
     endOfYear t := month_start (year_of t * 12 + 12) - 1;
     subDays t n := t - n * dayMs;
     eachDayOfInterval lo hi :=
       let first := lo / dayMs * dayMs in
       (fun k => first + k * dayMs) <$> seqZ 0 ((hi - first) / dayMs + 1);
     eachWeekOfInterval lo hi :=
       let first := week_start lo in
       (fun k => first + k * (7 * dayMs))
         <$> seqZ 0 ((week_start hi - first) / (7 * dayMs) + 1);
     eachMonthOfInterval lo hi :=
       let first := month_index lo in
       month_start <$> seqZ first (month_index hi - first + 1);
     getFullYear := year_of;
     getMonth t := month_of t - 1;
     getDate := day_of;
     Date_of y m d := month_start (y * 12 + m) + (d - 1) * dayMs |}.

End Utc.

(** ** The calendar of a process whose local time is UTC plus a fixed offset

    The wall clock of such a process at the instant [t] reads what the UTC
    clock reads at [t + offset] ([offset] in milliseconds, positive east
    of Greenwich), so every local-time function is the UTC one shifted. *)

Module Zone.

Definition calendar (offset : Z) : Calendar :=
  {| startOfDay t := @startOfDay Utc.calendar (t + offset) - offset;
     endOfDay t := @endOfDay Utc.calendar (t + offset) - offset;
     startOfWeek t := @startOfWeek Utc.calendar (t + offset) - offset;
     endOfWeek t := @endOfWeek Utc.calendar (t + offset) - offset;
     startOfMonth t := @startOfMonth Utc.calendar (t + offset) - offset;
     endOfMonth t := @endOfMonth Utc.calendar (t + offset) - offset;
     startOfYear t := @startOfYear Utc.calendar (t + offset) - offset;
     endOfYear t := @endOfYear Utc.calendar (t + offset) - offset;
     subDays t n := @subDays Utc.calendar (t + offset) n - offset;
     eachDayOfInterval lo hi :=
       (fun t => t - offset)
         <$> @eachDayOfInterval Utc.calendar (lo + offset) (hi + offset);
     eachWeekOfInterval lo hi :=
       (fun t => t - offset)
         <$> @eachWeekOfInterval Utc.calendar (lo + offset) (hi + offset);
     eachMonthOfInterval lo hi :=
       (fun t => t - offset)
         <$> @eachMonthOfInterval Utc.calendar (lo + offset) (hi + offset);
     getFullYear t := @getFullYear Utc.calendar (t + offset);
     getMonth t := @getMonth Utc.calendar (t + offset);
     getDate t := @getDate Utc.calendar (t + offset);
     Date_of y m d := @Date_of Utc.calendar y m d - offset |}.

End Zone.

(** ** Sequences of operations

    One command of the tool is one operation on the saved state; the clock
    reading of each is part of the command. *)

Inductive Op : Type :=
| DoCreateTask (taskName : string) (now : Z)
| DoDeleteTask (taskId : string)
| DoStartTracking (taskId : string) (now : Z)
| DoStopTracking (now : Z)
| DoPauseTracking (now : Z)
| DoResumeTracking (now : Z)
| DoSetGoal (taskId period : string) (duration : Z)
| DoRemoveGoal (taskId : string) (period : option string).

Definition exec (op : Op) (st : Store) : Store :=
  match op with
  | DoCreateTask taskName now =>
      mkStore (TaskManager.createTask taskName now (tasks st)).2 (tracking st)
  | DoDeleteTask taskId =>
      mkStore (TaskManager.deleteTask taskId (tasks st)).2 (tracking st)
  | DoStartTracking taskId now => (TimeTracker.startTracking taskId now st).2
  | DoStopTracking now => (TimeTracker.stopTracking now st).2
  | DoPauseTracking now => (TimeTracker.pauseTracking now st).2
  | DoResumeTracking now => (TimeTracker.resumeTracking now st).2
  | DoSetGoal taskId period duration =>
      mkStore (Goals.setGoal taskId period duration (tasks st)).2 (tracking st)
  | DoRemoveGoal taskId period =>
      mkStore (Goals.removeGoal taskId period (tasks st)).2 (tracking st)
  end.

Definition run (ops : list Op) (st : Store) : Store :=
  fold_left (fun st op => exec op st) ops st.

(** The tracking state names a task of the store whenever it names one. *)
Definition current_task_exists (st : Store) : Prop :=
  match Tracking.currentTask (tracking st) with
  | Some current => is_Some (tasks st !! current)
  | None => True
  end.

(** Along a run: no task is deleted while it is the one being tracked, and
    tracking is not started on a name that [Object.prototype] defines. *)
Fixpoint spares_current (ops : list Op) (st : Store) : bool :=
  match ops with
  | [] => true
  | op :: rest =>
      match op with
      | DoDeleteTask taskId =>
          negb (bool_decide (Tracking.currentTask (tracking st) = Some taskId))
      | DoStartTracking taskId _ => negb (JS.inherited taskId)
      | _ => true
      end && spares_current rest (exec op st)
  end.

(** What every stored task satisfies after any run: its key is a proper
    name, its total is the sum of its sessions, its sessions carry its key. *)
Definition task_ok (taskId : string) (t : Task.t) : Prop :=
  JS.inherited taskId = false
  /\ taskId <> ""
  /\ Task.totalTime t = sum_durations (Task.sessions t)
  /\ Forall (fun s => Session.task s = taskId) (Task.sessions t).

Definition store_ok (ts : gmap string Task.t) : Prop := map_Forall task_ok ts.

(** What the specification asks of [currentStreak]: the number of
    consecutive achieved instances counted from the most recent one. *)
Fixpoint leading_run (achieved : list bool) : nat :=
  match achieved with
  | true :: rest => S (leading_run rest)
  | _ => 0%nat
  end.

Definition spec_currentStreak (achieved : list bool) : Z :=
  Z.of_nat (leading_run achieved).

(** What the specification asks of [longestStreak]: there are [n]
    consecutive achieved instances somewhere, and nowhere more. *)
Definition has_run (n : nat) (achieved : list bool) : Prop :=
  exists before after, achieved = (before ++ replicate n true ++ after)%list.

Definition is_longest_run (n : nat) (achieved : list bool) : Prop :=
  has_run n achieved /\ forall m, has_run m achieved -> (m <= n)%nat.

(** The loop invariant of [getGoalStreak] after the instances [achieved]:
    [tempStreak] is the run that ends the list, [longestStreak] the longest. *)
Definition streak_inv (achieved : list bool) (v : Goals.StreakVars) : Prop :=
  Goals.v_temp v = Z.of_nat (leading_run (reverse achieved))
  /\ 0 <= Goals.v_longest v
  /\ is_longest_run (Z.to_nat (Goals.v_longest v)) achieved.

(** What the specification asks of [totalAchieved]: the number of achieved
    instances. *)
Definition count_achieved (flags : list bool) : Z :=
  Z.of_nat (length (List.filter id flags)).

(** The sub-intervals [ivs] tile [lo .. hi]: each is non-empty, the first
    starts at [lo], each next one starts the millisecond after the previous
    one ends, and the last ends at [hi]. *)
Fixpoint tiled (lo hi : Z) (ivs : list (Z * Z)) : bool :=
  match ivs with
  | [] => lo =? hi + 1
  | iv :: rest => (iv.1 =? lo) && (iv.1 <=? iv.2) && tiled (iv.2 + 1) hi rest
  end.

Definition sum_buckets (l : list Bucket.t) : Z :=
  foldr (fun b acc => Bucket.totalTime b + acc) 0 l.

(** A session that [groupSessionsByTask] can file: its task name is not a
    property name of [Object.prototype]. *)
Definition proper_name (s : Session.t) : Prop :=
  JS.inherited (Session.task s) = false.

(** What the calendar is relied on for in the additivity of the reports:
    the week of a date consists of seven days whose day intervals tile it,
    and the year of a date of twelve months whose month intervals tile it. *)
Section CalendarContract.
Context `{Calendar}.




End CalendarContract.

(** The year-level form of [year_tiled] in the UTC calendar, and the
    length of the 400-year cycle of the Gregorian calendar. *)
Module UtcCycle.
Import Utc.



End UtcCycle.

(** ** Sample histories, for the worked examples below *)

Module Sample.

(** 2024-02-29 12:34:56 UTC, a Thursday. *)
Definition now : Z := 1709210096000.
Definition hour : Z := 3600000.

(** A daily goal of four hours and one session of one hour today. *)
Definition one_hour_today : list Op :=
  [ DoCreateTask "coding" 0;
    DoSetGoal "coding" "daily" (4 * hour);
    DoStartTracking "coding" (now - hour);
    DoStopTracking now ].

(** A daily goal of two hours, met yesterday and met today. *)
Definition two_days_met : list Op :=
  [ DoCreateTask "coding" 0;
    DoSetGoal "coding" "daily" (2 * hour);
    DoStartTracking "coding" (now - 27 * hour);
    DoStopTracking (now - 24 * hour);
    DoStartTracking "coding" (now - 3 * hour);
    DoStopTracking now ].

(** Two tasks tracked on three days of one week. *)
Definition a_week : list Op :=
  [ DoCreateTask "coding" 0;
    DoCreateTask "email" 1;
    DoStartTracking "coding" (now - 74 * hour);
    DoStopTracking (now - 72 * hour);
    DoStartTracking "email" (now - 27 * hour);
    DoPauseTracking (now - 26 * hour);
    DoResumeTracking (now - 25 * hour);
    DoStopTracking (now - 24 * hour);
    DoStartTracking "coding" (now - 3 * hour);
    DoStopTracking now ].

(** The week of the specification's example: coding for two hours on
    Monday, three on Wednesday and one on Friday. *)
Definition spec_week : list Op :=
  [ DoCreateTask "coding" 0;
    DoStartTracking "coding" (now - 74 * hour);
    DoStopTracking (now - 72 * hour);
    DoStartTracking "coding" (now - 27 * hour);
    DoStopTracking (now - 24 * hour);
    DoStartTracking "coding" (now + 22 * hour);
    DoStopTracking (now + 23 * hour) ].

End Sample.

(** ** More of the sources: status, listing, summary, the command line *)

From Stdlib Require Sorted.

Module Status.
(** The result of [getStatus]. *)
Record t : Type := mk
  { isTracking : bool;
    currentTask : option string;
    startTime : option Z;
    isPaused : bool;
    elapsedTime : Z }.
End Status.

(** [timeTracker.getStatus] at clock reading [now]. *)
Definition getStatus (now : Z) (st : Store) : Status.t :=
  let tr := tracking st in
  match JS.truthy_str (Tracking.currentTask tr) with
  | None => Status.mk false None None false 0
  | Some current =>
      let startTime := JS.Date_getTime (Tracking.startTime tr) in
      let elapsedTime :=
        if Tracking.isPaused tr then
          JS.Date_getTime (Tracking.pausedTime tr) - startTime
        else now - startTime in
      Status.mk true (Some current) (Some startTime) (Tracking.isPaused tr)
                (Z.max 0 elapsedTime)
  end.

(** [Array.prototype.sort(compare)], a stable sort: [before x h] is
    [compare(x, h) <= 0], and an element is placed in front of the first
    element it may stay before. *)
Fixpoint insert_by {A : Type} (before : A -> A -> bool) (x : A) (l : list A)
  : list A :=
  match l with
  | [] => [x]
  | h :: l' => if before x h then x :: l else h :: insert_by before x l'
  end.

Definition sort_by {A : Type} (before : A -> A -> bool) (l : list A) : list A :=
  foldr (insert_by before) [] l.

(** [taskManager.listTasks]: the tasks by ascending creation date. *)
Definition listTasks (ts : gmap string Task.t) : list Task.t :=
  sort_by (fun a b => Task.created a <=? Task.created b) (Object_values ts).

Module Ranked.
(** An entry of [getTaskSummary]'s [tasks]. *)
Record t : Type := mk
  { name : string;
    totalTime : Z;
    percentage : Z;
    sessionCount : nat }.
End Ranked.

(** [analytics.getTaskSummary]: the ranking and [totalTimeAllTasks]. *)
Definition getTaskSummary (ts : gmap string Task.t) : list Ranked.t * Z :=
  let taskArray := Object_values ts in
  match taskArray with
  | [] => ([], 0)
  | _ =>
      let totalTimeAllTasks :=
        fold_left (fun sum task => sum + Task.totalTime task) taskArray 0 in
      let tasksWithPercentage :=
        List.map
          (fun task =>
             Ranked.mk (Task.name task) (Task.totalTime task)
               (if 0 <? totalTimeAllTasks
                then Goals.percentage_of (Task.totalTime task) totalTimeAllTasks
                else 0)
               (length (Task.sessions task)))
          taskArray in
      (sort_by (fun a b => Ranked.totalTime b <=? Ranked.totalTime a)
               tasksWithPercentage,
       totalTimeAllTasks)
  end.

(** [parseDuration] of the command line, for the pattern
    [/^(?:(\d+)h)?(?:(\d+)m)?(?:(\d+)s)?$/].  Each optional group either
    consumes a run of digits followed by its unit letter or nothing; a
    digit run denotes its decimal value ([parseInt], exact below 2^53). *)
Definition is_digit (c : ascii) : bool :=
  let n := Z.of_nat (nat_of_ascii c) in (48 <=? n) && (n <=? 57).

Fixpoint take_digits (s : string) : list ascii * string :=
  match s with
  | EmptyString => ([], EmptyString)
  | String c rest =>
      if is_digit c then
        let '(ds, rest') := take_digits rest in (c :: ds, rest')
      else ([], s)
  end.

Definition digits_value (ds : list ascii) : Z :=
  fold_left (fun acc c => acc * 10 + (Z.of_nat (nat_of_ascii c) - 48)) ds 0.

(** The group [(?:(\d+)u)?] at the head of [s]: the value of its capture
    ([parseInt(match[i]) || 0], which is 0 when the group is skipped) and
    the rest of the string. *)
Definition parse_group (unit : ascii) (s : string) : Z * string :=
  match take_digits s with
  | (d :: ds, String c rest) =>
      if bool_decide (c = unit) then (digits_value (d :: ds), rest) else (0, s)
  | _ => (0, s)
  end.

(** [None] is the [null] returned for no match and for a zero duration. *)
Definition parseDuration (durationStr : string) : option Z :=
  let '(hours, s1) := parse_group "h" durationStr in
  let '(minutes, s2) := parse_group "m" s1 in
  let '(seconds, s3) := parse_group "s" s2 in
  if negb (bool_decide (s3 = "")) then None
  else if (hours =? 0) && (minutes =? 0) && (seconds =? 0) then None
  else Some ((hours * 60 * 60 + minutes * 60 + seconds) * 1000).

(** The [goals] command at [if (options.set && options.time)], where
    [options.set] and [options.time] are [undefined] ([None]) when the
    option is not given.  When either is falsy the branch is not taken and
    the command goes on to [--remove], [--status], [--list] or the
    overview: [None].  In the branch: 'Invalid duration format' when
    [parseDuration] gives a falsy value, the result of [setGoal]
    otherwise. *)
Inductive GoalsSetOutcome : Type :=
| InvalidDurationFormat
| SetGoalResult (r : Result bool).

Definition cli_goals_set (set : option string) (period : string)
    (time : option string) (ts : gmap string Task.t)
  : option (GoalsSetOutcome * gmap string Task.t) :=
  match JS.truthy_str set, JS.truthy_str time with
  | Some task, Some durationStr =>
      match parseDuration durationStr with
      | None => Some (InvalidDurationFormat, ts)
      | Some duration =>
          if duration =? 0 then Some (InvalidDurationFormat, ts)
          else
            let '(r, ts') := Goals.setGoal task period duration ts in
            Some (SetGoalResult r, ts')
      end
  | _, _ => None
  end.

(** The [start <task>] command with a task given on the command line: the
    task is created when [getTask] does not find it, then tracking starts.
    [nowCreate] and [nowStart] are the two clock readings.  Without a task
    ([None] here) the command asks the user to choose one. *)
Definition cli_start (task : string) (nowCreate nowStart : Z) (st : Store)
  : option (Result Z * Store) :=
  if bool_decide (task = "") then None
  else
    if JS.truthy (TaskManager.getTask task (tasks st)) then
      Some (TimeTracker.startTracking task nowStart st)
    else
      match TaskManager.createTask task nowCreate (tasks st) with
      | (Failure e, _) => Some (Failure e, st)
      | (Success _, ts') =>
          Some (TimeTracker.startTracking task nowStart (mkStore ts' (tracking st)))
      end.

(** ** Predicates of the further properties *)

(** The tracking record is coherent: the pause timestamp is there exactly
    when the paused flag is set, the start timestamp exactly when a task is
    current, a paused record has a current task, and the current task is
    not the empty string. *)
Definition tracking_coherent (tr : Tracking.t) : Prop :=
  (Tracking.isPaused tr = true <-> is_Some (Tracking.pausedTime tr))
  /\ (is_Some (Tracking.currentTask tr) <-> is_Some (Tracking.startTime tr))
  /\ (Tracking.isPaused tr = true -> is_Some (Tracking.currentTask tr))
  /\ Tracking.currentTask tr <> Some "".

(** The clock reading of an operation, when it takes one. *)
Definition clock (op : Op) : option Z :=
  match op with
  | DoCreateTask _ now | DoStartTracking _ now | DoStopTracking now
  | DoPauseTracking now | DoResumeTracking now => Some now
  | DoDeleteTask _ | DoSetGoal _ _ _ | DoRemoveGoal _ _ => None
  end.

(** The clock never goes back along [ops], starting from reading [t]. *)
Fixpoint clock_monotone (t : Z) (ops : list Op) : bool :=
  match ops with
  | [] => true
  | op :: rest =>
      match clock op with
      | Some now => (t <=? now) && clock_monotone now rest
      | None => clock_monotone t rest
      end
  end.

(** A session spans a non-negative duration that fits between its start
    and its end. *)
Definition session_sane (s : Session.t) : Prop :=
  0 <= Session.duration s <= Session.endTime s - Session.startTime s.

(** What the tracking record may hold at clock reading [t]. *)
Definition tracking_in_time (t : Z) (tr : Tracking.t) : Prop :=
  match Tracking.startTime tr with
  | Some start =>
      start <= t
      /\ match Tracking.pausedTime tr with
         | Some paused => start <= paused <= t
         | None => True
         end
  | None => Tracking.pausedTime tr = None
  end.

(** Every stored goal is for one of the four periods and positive, and no
    task carries an empty goals object. *)
Definition goals_ok (t : Task.t) : Prop :=
  match Task.goals t with
  | Some taskGoals =>
      taskGoals <> ∅
      /\ map_Forall (fun period duration =>
                       Goals.isValidGoalPeriod period = true /\ 0 < duration)
                    taskGoals
  | None => True
  end.

(** The pause/resume pairs of a tracking session as operations, and the
    time they keep out of the session. *)
Definition pause_resume_ops (pairs : list (Z * Z)) : list Op :=
  flat_map (fun pr => [DoPauseTracking pr.1; DoResumeTracking pr.2]) pairs.

Definition paused_total (pairs : list (Z * Z)) : Z :=
  foldr (fun pr acc => (pr.2 - pr.1) + acc) 0 pairs.

(** The sessions of a list that belong to one task, and the total of the
    groups of a ranking that carry one name (there is at most one). *)
Definition sessions_of_task (taskId : string) (l : list Session.t) : list Session.t :=
  List.filter (fun s => bool_decide (Session.task s = taskId)) l.

Definition group_total (taskId : string) (l : list Group.t) : Z :=
  Analytics.sum_groups (List.filter (fun g => bool_decide (Group.name g = taskId)) l).

Definition Period_of_name (period : string) : option Period :=
  if bool_decide (period = "daily") then Some daily
  else if bool_decide (period = "weekly") then Some weekly
  else if bool_decide (period = "monthly") then Some monthly
  else if bool_decide (period = "yearly") then Some yearly
  else None.

Section MoreWithCalendar.
Context `{Calendar}.

(** What the calendar is relied on for in the weekly breakdown of a month:
    the weeks of [eachWeekOfInterval], each taken to its end, tile a span
    that covers the month. *)
Definition month_covered (targetDate : Z) : bool :=
  let monthStart := startOfMonth targetDate in
  let monthEnd := endOfMonth targetDate in
  let weeks := Analytics.weeks_of_month monthStart monthEnd in
  match weeks with
  | [] => false
  | first :: _ =>
      (first.1 <=? monthStart)
      && (monthEnd <=? (List.last weeks first).2)
      && tiled first.1 (List.last weeks first).2 weeks
  end.

(** [goals.getTaskGoalStatus] at clock reading [now]: for every period of
    the task's goals, the goal and its progress ([None] is [null]).  The
    task exists, since it has goals; a key of its goals that is not one of
    the four periods then makes [getTimeRangeForPeriod] throw, unless its
    goal is falsy: the result is [None] when it throws. *)
Definition goal_status (taskId : string) (now : Z) (ts : gmap string Task.t)
    (entry : string * Z) : option (string * Z * option Goals.GoalProgress) :=
  match Period_of_name entry.1 with
  | Some period =>
      Some (entry.1, entry.2, Goals.getGoalProgress taskId period now ts)
  | None =>
      if entry.2 =? 0 then Some (entry.1, entry.2, None) else None
  end.

Definition getTaskGoalStatus (taskId : string) (now : Z) (ts : gmap string Task.t)
  : option (list (string * Z * option Goals.GoalProgress)) :=
  mapM (goal_status taskId now ts) (map_to_list (Goals.getTaskGoals taskId ts)).

End MoreWithCalendar.

(** * Properties *)

(** ** The tracking state machine *)

Section Tracker.
Import TaskManager TimeTracker.

Lemma truthy_str_Some o s : JS.truthy_str o = Some s -> o = Some s /\ s <> "".
Proof.
  destruct o as [s'|]; simpl; [|done].
  case_bool_decide; [done|]. intros [= ->]. done.
Qed.

Lemma truthy_str_intro s : s <> "" -> JS.truthy_str (Some s) = Some s.
Proof. intros Hs. simpl. by rewrite bool_decide_eq_false_2. Qed.

Lemma get_truthy {A} (o : gmap string A) k :
  JS.truthy (JS.get o k) = true -> is_Some (o !! k) \/ JS.inherited k = true.
Proof.
  unfold JS.get. destruct (o !! k); [eauto|].
  destruct (JS.inherited k); [eauto | done].
Qed.

Lemma inherited_nonempty k : JS.inherited k = true -> k <> "".
Proof. intros Hk ->. vm_compute in Hk. done. Qed.

End Tracker.

(** ** What every run preserves *)

Section Invariants.
Import TaskManager TimeTracker Goals.

Lemma sum_durations_app l1 l2 :
  sum_durations (l1 ++ l2) = sum_durations l1 + sum_durations l2.
Proof. induction l1 as [|s l1 IH]; simpl; lia. Qed.

Lemma get_falsy {A} (o : gmap string A) k :
  JS.truthy (JS.get o k) = false -> o !! k = None /\ JS.inherited k = false.
Proof.
  unfold JS.get. destruct (o !! k); [done|].
  destruct (JS.inherited k); done.
Qed.

Lemma valid_name_nonempty s : isValidTaskName s = true -> s <> "".
Proof. unfold isValidTaskName. case_bool_decide; done. Qed.

Lemma createTask_cases taskName now ts :
  (exists e, createTask taskName now ts = (Failure e, ts))
  \/ (isValidTaskName taskName = true
      /\ ts !! taskName = None
      /\ JS.inherited taskName = false
      /\ createTask taskName now ts
         = (Success (Task.mk taskName taskName now 0 [] None),
            <[taskName := Task.mk taskName taskName now 0 [] None]> ts)).
Proof.
  unfold createTask.
  destruct (bool_decide (taskName = "") || JS.trim_is_empty taskName); [eauto|].
  destruct (isValidTaskName taskName) eqn:Hv; simpl; [|eauto].
  destruct (JS.truthy (JS.get ts taskName)) eqn:Ht; [eauto|].
  apply get_falsy in Ht as [??]. right. done.
Qed.

Lemma createTask_ok taskName now ts :
  store_ok ts -> store_ok (createTask taskName now ts).2.
Proof.
  intros Hok.
  destruct (createTask_cases taskName now ts) as [[e ->]|(Hv & Hn & Hi & ->)];
    [done|]. simpl.
  apply map_Forall_insert_2; [|done].
  repeat split; auto using valid_name_nonempty.
Qed.

Lemma deleteTask_ok taskId ts :
  store_ok ts -> store_ok (deleteTask taskId ts).2.
Proof.
  intros Hok. unfold deleteTask.
  destruct (negb _); simpl; [done|]. by apply map_Forall_delete.
Qed.

Lemma stopTracking_ok now st :
  store_ok (tasks st) -> store_ok (tasks (stopTracking now st).2).
Proof.
  intros Hok. unfold stopTracking.
  destruct (JS.truthy_str _) as [current|] eqn:Hc; [|done]. simpl.
  unfold getTask, JS.get.
  destruct (tasks st !! current) as [task|] eqn:Ht; [|by destruct (JS.inherited _)].
  destruct (Hok _ _ Ht) as (Hi & Hne & Htot & Hall).
  apply map_Forall_insert_2; [|done].
  repeat split; simpl; auto.
  - rewrite sum_durations_app. simpl. lia.
  - apply Forall_app. split; [done|]. by constructor.
Qed.

Lemma saveGoals_ok goals ts : store_ok ts -> store_ok (saveGoals goals ts).
Proof.
  intros Hok k t'. unfold saveGoals. rewrite map_lookup_imap.
  destruct (ts !! k) as [t|] eqn:Ht; simpl; [|done].
  intros [= <-]. exact (Hok _ _ Ht).
Qed.

Lemma setGoal_ok taskId period duration ts :
  store_ok ts -> store_ok (setGoal taskId period duration ts).2.
Proof.
  intros Hok. unfold setGoal.
  repeat (match goal with
          | |- context [if ?b then _ else _] => destruct b
          | |- context [match JS.get ?o ?k with _ => _ end] => destruct (JS.get o k)
          end; simpl; auto using saveGoals_ok).
Qed.

Lemma removeGoal_ok taskId period ts :
  store_ok ts -> store_ok (removeGoal taskId period ts).2.
Proof.
  intros Hok. unfold removeGoal.
  destruct (JS.truthy_str period);
    destruct (JS.get (loadGoals ts) taskId) as [taskGoals| |];
    simpl; auto using saveGoals_ok.
  destruct (match JS.get taskGoals s with JS.Own g => g =? 0
            | JS.Inherited => false | JS.Undefined => true end);
    simpl; auto using saveGoals_ok.
Qed.

Lemma startTracking_tasks taskId now st :
  tasks (startTracking taskId now st).2 = tasks st.
Proof.
  unfold startTracking. destruct (negb _); [done|].
  by destruct (JS.truthy_str _).
Qed.

Lemma pauseTracking_tasks now st : tasks (pauseTracking now st).2 = tasks st.
Proof.
  unfold pauseTracking. destruct (JS.truthy_str _); [|done].
  by destruct (Tracking.isPaused _).
Qed.

Lemma resumeTracking_tasks now st : tasks (resumeTracking now st).2 = tasks st.
Proof.
  unfold resumeTracking. destruct (JS.truthy_str _); [|done].
  by destruct (negb _).
Qed.

Lemma exec_ok op st : store_ok (tasks st) -> store_ok (tasks (exec op st)).
Proof.
  intros Hok. destruct op; simpl;
    rewrite ?startTracking_tasks, ?pauseTracking_tasks, ?resumeTracking_tasks;
    auto using createTask_ok, deleteTask_ok, stopTracking_ok, setGoal_ok,
      removeGoal_ok.
Qed.

Lemma run_ok ops st : store_ok (tasks st) -> store_ok (tasks (run ops st)).
Proof.
  revert st. induction ops as [|op ops IH]; intros st Hok; simpl; [done|].
  apply IH. by apply exec_ok.
Qed.

Lemma reachable_ok ops : store_ok (tasks (run ops initial_store)).
Proof. apply run_ok. simpl. apply map_Forall_empty. Qed.

End Invariants.

Section TrackerClaims.
Import TaskManager TimeTracker.

(** C1.  In every Paused tracking state (a current task and a pause
    timestamp are set) [stopTracking] succeeds, and the duration it
    returns and records in the finalized session is the pause timestamp
    minus the start timestamp, whatever the clock reads at the stop; an
    existing task receives exactly that session. *)
Theorem stop_while_paused st now current start paused :
  Tracking.currentTask (tracking st) = Some current ->
  current <> "" ->
  Tracking.startTime (tracking st) = Some start ->
  Tracking.pausedTime (tracking st) = Some paused ->
  exists session st',
    stopTracking now st = (Success (paused - start, session), st')
    /\ Session.duration session = paused - start
    /\ (forall task, tasks st !! current = Some task ->
          exists task', tasks st' !! current = Some task'
            /\ Task.sessions task' = (Task.sessions task ++ [session])%list).
Proof.
  intros Hc Hne Hs Hp. unfold stopTracking, stop_duration.
  rewrite Hc, truthy_str_intro, Hs, Hp by done. simpl.
  replace (now - start - (now - paused)) with (paused - start) by lia.
  eexists _, _. split; [reflexivity|]. split; [reflexivity|].
  intros task Ht. unfold getTask, JS.get. rewrite Ht. simpl.
  rewrite lookup_insert_eq. eauto.
Qed.

Lemma stop_while_paused_witness :
  exists session st',
    stopTracking 900
      (run [DoCreateTask "coding" 0; DoStartTracking "coding" 100;
            DoPauseTracking 500] initial_store)
    = (Success (500 - 100, session), st')
    /\ Session.duration session = 500 - 100
    /\ (forall task,
          tasks (run [DoCreateTask "coding" 0; DoStartTracking "coding" 100;
                      DoPauseTracking 500] initial_store) !! "coding" = Some task ->
          exists task', tasks st' !! "coding" = Some task'
            /\ Task.sessions task' = (Task.sessions task ++ [session])%list).
Proof.
  apply (stop_while_paused _ 900 "coding" 100 500); [reflexivity | | reflexivity..].
  discriminate.
Defined.

Lemma start_pause_resume_stop_from st taskId t0 t1 t2 t3 :
  taskId <> "" ->
  succeeded (startTracking taskId t0 st).1 = true ->
  exists st1 st2 st3 st4 session,
    startTracking taskId t0 st = (Success t0, st1)
    /\ pauseTracking t1 st1 = (Success tt, st2)
    /\ resumeTracking t2 st2 = (Success tt, st3)
    /\ tracking st3
       = Tracking.mk (Some taskId) (Some (t0 + (t2 - t1))) None false
                     (Tracking.sessions (tracking st))
    /\ stopTracking t3 st3 = (Success ((t3 - t0) - (t2 - t1), session), st4)
    /\ session = Session.mk taskId (t0 + (t2 - t1)) t3 ((t3 - t0) - (t2 - t1))
    /\ tracking st4
       = Tracking.mk None None None false (Tracking.sessions (tracking st))
    /\ tasks st4
       = match tasks st !! taskId with
         | Some task =>
             <[taskId := Task.mk (Task.id task) (Task.name task) (Task.created task)
                           (Task.totalTime task + ((t3 - t0) - (t2 - t1)))
                           (Task.sessions task ++ [session])
                           (Task.goals task)]> (tasks st)
         | None => tasks st
         end.
Proof.
  intros Hne. unfold startTracking.
  destruct (negb _); [done|].
  destruct (JS.truthy_str (Tracking.currentTask (tracking st))); [done|].
  intros _. eexists _, _, _, _, _. split; [reflexivity|].
  unfold pauseTracking. simpl. rewrite bool_decide_eq_false_2 by done.
  split; [reflexivity|].
  unfold resumeTracking. simpl. rewrite bool_decide_eq_false_2 by done.
  split; [reflexivity|]. split; [reflexivity|].
  unfold stopTracking, stop_duration. simpl.
  rewrite bool_decide_eq_false_2 by done.
  replace (t3 - (t0 + (t2 - t1))) with (t3 - t0 - (t2 - t1)) by lia.
  split; [reflexivity|]. split; [reflexivity|]. split; [reflexivity|].
  unfold getTask, JS.get. destruct (tasks st !! taskId); [done|].
  by destruct (JS.inherited taskId).
Qed.

Lemma startTracking_name ops taskId t0 :
  succeeded (startTracking taskId t0 (run ops initial_store)).1 = true ->
  taskId <> "".
Proof.
  unfold startTracking.
  destruct (JS.truthy _) eqn:Ht; [|done]. intros _.
  apply get_truthy in Ht as [[task Ht]|Hi]; [|by apply inherited_nonempty].
  by destruct (reachable_ok ops _ _ Ht) as (_ & ? & _).
Qed.

(** C2.  After any history, when [start(t)] succeeds at clock reading
    [t0] and is followed by pause at [t1], resume at [t2] and stop at
    [t3]: all four succeed; resume stores the start timestamp
    [t0 + (t2 - t1)] and clears the pause timestamp and the paused flag;
    the finalized session runs from that start to [t3] with duration
    [(t3 - t0) - (t2 - t1)]; the stop resets the tracking record, and the
    stored task receives the session at the end of its sessions and the
    duration on its total (a started id that names no stored task, which
    is a property name of [Object.prototype], leaves the tasks as they
    were). *)
Theorem start_pause_resume_stop ops taskId t0 t1 t2 t3 :
  succeeded (startTracking taskId t0 (run ops initial_store)).1 = true ->
  exists st1 st2 st3 st4 session,
    startTracking taskId t0 (run ops initial_store) = (Success t0, st1)
    /\ pauseTracking t1 st1 = (Success tt, st2)
    /\ resumeTracking t2 st2 = (Success tt, st3)
    /\ tracking st3
       = Tracking.mk (Some taskId) (Some (t0 + (t2 - t1))) None false
                     (Tracking.sessions (tracking (run ops initial_store)))
    /\ stopTracking t3 st3 = (Success ((t3 - t0) - (t2 - t1), session), st4)
    /\ session = Session.mk taskId (t0 + (t2 - t1)) t3 ((t3 - t0) - (t2 - t1))
    /\ tracking st4
       = Tracking.mk None None None false
                     (Tracking.sessions (tracking (run ops initial_store)))
    /\ tasks st4
       = match tasks (run ops initial_store) !! taskId with
         | Some task =>
             <[taskId := Task.mk (Task.id task) (Task.name task) (Task.created task)
                           (Task.totalTime task + ((t3 - t0) - (t2 - t1)))
                           (Task.sessions task ++ [session])
                           (Task.goals task)]> (tasks (run ops initial_store))
         | None => tasks (run ops initial_store)
         end.
Proof.
  intros Hs. apply start_pause_resume_stop_from; [|done].
  by apply (startTracking_name ops taskId t0).
Qed.

Lemma start_pause_resume_stop_witness :
  exists st1 st2 st3 st4 session,
    startTracking "coding" 1000 (run [DoCreateTask "coding" 0] initial_store)
    = (Success 1000, st1)
    /\ pauseTracking 4000 st1 = (Success tt, st2)
    /\ resumeTracking 6000 st2 = (Success tt, st3)
    /\ tracking st3
       = Tracking.mk (Some "coding") (Some (1000 + (6000 - 4000))) None false
           (Tracking.sessions (tracking (run [DoCreateTask "coding" 0] initial_store)))
    /\ stopTracking 9000 st3 = (Success ((9000 - 1000) - (6000 - 4000), session), st4)
    /\ session
       = Session.mk "coding" (1000 + (6000 - 4000)) 9000 ((9000 - 1000) - (6000 - 4000))
    /\ tracking st4
       = Tracking.mk None None None false
           (Tracking.sessions (tracking (run [DoCreateTask "coding" 0] initial_store)))
    /\ tasks st4
       = match tasks (run [DoCreateTask "coding" 0] initial_store) !! "coding" with
         | Some task =>
             <["coding" := Task.mk (Task.id task) (Task.name task) (Task.created task)
                             (Task.totalTime task + ((9000 - 1000) - (6000 - 4000)))
                             (Task.sessions task ++ [session])
                             (Task.goals task)]>
               (tasks (run [DoCreateTask "coding" 0] initial_store))
         | None => tasks (run [DoCreateTask "coding" 0] initial_store)
         end.
Proof.
  apply (start_pause_resume_stop [DoCreateTask "coding" 0] "coding" 1000 4000 6000 9000).
  reflexivity.
Defined.

(** C10.  When tracking is active but the current task is not in the task
    store, [stopTracking] still succeeds with the computed duration, saves
    the task store as it was (no session is appended, no total changes)
    and resets the tracking state to Idle. *)
Theorem stop_without_task st now current :
  Tracking.currentTask (tracking st) = Some current ->
  current <> "" ->
  tasks st !! current = None ->
  exists session,
    stopTracking now st
    = (Success (stop_duration (tracking st) now, session),
       mkStore (tasks st)
               (Tracking.mk None None None false (Tracking.sessions (tracking st))))
    /\ Session.duration session = stop_duration (tracking st) now.
Proof.
  intros Hc Hne Ht. unfold stopTracking.
  rewrite Hc, truthy_str_intro by done. simpl.
  unfold getTask, JS.get. rewrite Ht.
  destruct (JS.inherited current); eexists; split; reflexivity.
Qed.

Lemma stop_without_task_witness :
  exists session,
    stopTracking 700
      (run [DoCreateTask "coding" 0; DoStartTracking "coding" 100;
            DoDeleteTask "coding"] initial_store)
    = (Success (600, session),
       mkStore ∅ (Tracking.mk None None None false []))
    /\ Session.duration session = 600.
Proof.
  apply (stop_without_task
           (run [DoCreateTask "coding" 0; DoStartTracking "coding" 100;
                 DoDeleteTask "coding"] initial_store) 700 "coding");
    [reflexivity | discriminate | reflexivity].
Defined.

End TrackerClaims.

Section StoreClaims.
Import TaskManager TimeTracker Goals.

(** C7.  After every sequence of operations from the initial state, hence
    after every task creation, completed stop and task deletion, the
    stored [totalTime] of every task equals the sum of the [duration]
    fields of the sessions in its session list. *)
Theorem total_time_is_sum_of_sessions ops :
  map_Forall (fun _ t => Task.totalTime t = sum_durations (Task.sessions t))
             (tasks (run ops initial_store)).
Proof.
  intros k t Ht. by destruct (reachable_ok ops _ _ Ht) as (_ & _ & ? & _).
Qed.

Lemma saveGoals_is_Some goals ts k :
  is_Some (ts !! k) -> is_Some (saveGoals goals ts !! k).
Proof.
  intros [t Ht]. unfold saveGoals. rewrite map_lookup_imap, Ht. simpl. eauto.
Qed.

Lemma setGoal_is_Some taskId period duration ts k :
  is_Some (ts !! k) -> is_Some ((setGoal taskId period duration ts).2 !! k).
Proof.
  intros Hk. unfold setGoal.
  repeat (match goal with
          | |- context [if ?b then _ else _] => destruct b
          | |- context [match JS.get ?o ?k with _ => _ end] => destruct (JS.get o k)
          end; simpl; auto using saveGoals_is_Some).
Qed.

Lemma removeGoal_is_Some taskId period ts k :
  is_Some (ts !! k) -> is_Some ((removeGoal taskId period ts).2 !! k).
Proof.
  intros Hk. unfold removeGoal.
  destruct (JS.truthy_str period);
    destruct (JS.get (loadGoals ts) taskId) as [taskGoals| |];
    simpl; auto using saveGoals_is_Some.
  destruct (match JS.get taskGoals s with JS.Own g => g =? 0
            | JS.Inherited => false | JS.Undefined => true end);
    simpl; auto using saveGoals_is_Some.
Qed.

Lemma createTask_is_Some taskName now ts k :
  is_Some (ts !! k) -> is_Some ((createTask taskName now ts).2 !! k).
Proof.
  intros Hk.
  destruct (createTask_cases taskName now ts) as [[e ->]|(_ & _ & _ & ->)];
    [done|]. simpl. rewrite lookup_insert_is_Some. destruct (decide (taskName = k)); auto.
Qed.

Lemma exec_current_task_exists op st :
  current_task_exists st ->
  spares_current [op] st = true ->
  current_task_exists (exec op st).
Proof.
  unfold current_task_exists. intros Hcur Hsp. simpl in Hsp.
  rewrite andb_true_r in Hsp.
  destruct op as [taskName now|taskId|taskId now|now|now|now|taskId p d|taskId p];
    simpl in *.
  - destruct (Tracking.currentTask _); [|done]. by apply createTask_is_Some.
  - destruct (Tracking.currentTask _) as [current|]; [|done].
    apply negb_true_iff, bool_decide_eq_false in Hsp.
    unfold deleteTask. destruct (negb _); simpl; [done|].
    rewrite lookup_delete_ne; [done|]. congruence.
  - unfold startTracking.
    destruct (JS.truthy _) eqn:Ht; simpl; [|done].
    destruct (JS.truthy_str _); simpl; [done|].
    apply get_truthy in Ht as [?|Hi]; [done|].
    rewrite Hi in Hsp. done.
  - unfold stopTracking. by destruct (JS.truthy_str _).
  - unfold pauseTracking. destruct (JS.truthy_str _); [|done].
    by destruct (Tracking.isPaused _).
  - unfold resumeTracking. destruct (JS.truthy_str _); [|done].
    by destruct (negb _).
  - destruct (Tracking.currentTask _); [|done]. by apply setGoal_is_Some.
  - destruct (Tracking.currentTask _); [|done]. by apply removeGoal_is_Some.
Qed.

Lemma run_current_task_exists ops st :
  current_task_exists st ->
  spares_current ops st = true ->
  current_task_exists (run ops st).
Proof.
  revert st. induction ops as [|op ops IH]; intros st Hcur Hsp; [done|].
  simpl. simpl in Hsp. apply andb_true_iff in Hsp as [Hop Hrest].
  apply IH; [|done]. apply exec_current_task_exists; [done|].
  simpl. by rewrite Hop.
Qed.

(** C4, as the code has it.  After every sequence of operations from the
    initial state in which no task is deleted while it is the one being
    tracked (and tracking is not started on a property name of
    [Object.prototype]), a non-null current task names a task of the
    store.  [deleteTask] itself does not look at the tracking state. *)
Theorem current_task_exists_when_spared ops :
  spares_current ops initial_store = true ->
  current_task_exists (run ops initial_store).
Proof. intros Hsp. by apply run_current_task_exists. Qed.

Lemma current_task_exists_when_spared_witness :
  current_task_exists
    (run [DoCreateTask "coding" 0; DoCreateTask "email" 1;
          DoStartTracking "coding" 2; DoDeleteTask "email";
          DoPauseTracking 3] initial_store).
Proof.
  apply (current_task_exists_when_spared
           [DoCreateTask "coding" 0; DoCreateTask "email" 1;
            DoStartTracking "coding" 2; DoDeleteTask "email";
            DoPauseTracking 3]).
  vm_compute. reflexivity.
Defined.

(** C4 as stated fails: deleting the task being tracked leaves the
    tracking state naming a task that the store no longer has. *)
Lemma delete_current_task_orphans_tracking :
  ~ current_task_exists
      (run [DoCreateTask "coding" 0; DoStartTracking "coding" 1;
            DoDeleteTask "coding"] initial_store).
Proof. vm_compute. intros [t Ht]. discriminate Ht. Qed.

End StoreClaims.

(** ** Task creation *)

Section CreateTask.
Import TaskManager.

Lemma name_char_not_white_space c :
  is_name_char c = true -> JS.is_white_space c = false.
Proof.
  unfold is_name_char, JS.is_white_space.
  generalize (Z.of_nat (nat_of_ascii c)). intros n Hn.
  repeat (apply orb_true_iff in Hn as [Hn|Hn]);
    try apply andb_true_iff in Hn as [??];
    repeat (apply orb_false_iff; split); try apply andb_false_iff; lia.
Qed.

Lemma valid_name_not_blank s :
  isValidTaskName s = true -> JS.trim_is_empty s = false.
Proof.
  unfold isValidTaskName, JS.trim_is_empty.
  case_bool_decide; [done|]. destruct s as [|c s]; [done|]. simpl.
  intros [Hc _]%andb_true_iff. by rewrite (name_char_not_white_space c).
Qed.

(** Every name matching [[A-Za-z0-9_-]+] that is neither a task of the
    store nor a property name of [Object.prototype] is created, and
    [getTask] then returns the new record. *)
Lemma createTask_fresh s now ts :
  isValidTaskName s = true ->
  ts !! s = None ->
  JS.inherited s = false ->
  exists ts',
    createTask s now ts = (Success (Task.mk s s now 0 [] None), ts')
    /\ getTask s ts' = JS.Own (Task.mk s s now 0 [] None).
Proof.
  intros Hv Hn Hi. unfold createTask.
  rewrite (valid_name_not_blank s Hv), Hv.
  rewrite bool_decide_eq_false_2 by by apply valid_name_nonempty.
  unfold JS.get at 1. rewrite Hn, Hi. simpl.
  eexists. split; [reflexivity|].
  unfold getTask, JS.get. by rewrite lookup_insert_eq.
Qed.

(** Every other string, and every name already in the store, is refused
    and the store is left as it was. *)
Lemma createTask_invalid s now ts :
  isValidTaskName s = false ->
  exists e, createTask s now ts = (Failure e, ts).
Proof.
  intros Hv. unfold createTask.
  destruct (bool_decide (s = "") || JS.trim_is_empty s); [eauto|].
  rewrite Hv. simpl. eauto.
Qed.

Lemma createTask_existing s now ts :
  isValidTaskName s = true ->
  is_Some (ts !! s) ->
  createTask s now ts = (Failure (TaskAlreadyExists s), ts).
Proof.
  intros Hv [t Ht]. unfold createTask.
  rewrite (valid_name_not_blank s Hv), Hv.
  rewrite bool_decide_eq_false_2 by by apply valid_name_nonempty.
  unfold JS.get. by rewrite Ht.
Qed.

(** C9, where the code departs from it.  The name [constructor] matches
    [[A-Za-z0-9_-]+] and is not a task of the empty store, yet
    [createTask] refuses it as already existing:
    [existingTasks["constructor"]] finds [Object.prototype.constructor]. *)
Theorem createTask_refuses_constructor now :
  isValidTaskName "constructor" = true
  /\ (∅ : gmap string Task.t) !! "constructor" = None
  /\ createTask "constructor" now ∅
     = (Failure (TaskAlreadyExists "constructor"), ∅).
Proof. split; [reflexivity|]. split; reflexivity. Qed.

End CreateTask.

(** ** Setting goals *)

Section SetGoal.
Import TaskManager Goals.

Lemma with_goals_same t : with_goals (Task.goals t) t = t.
Proof. by destruct t. Qed.

Lemma loadGoals_lookup ts k : loadGoals ts !! k = ts !! k ≫= Task.goals.
Proof. unfold loadGoals. by rewrite lookup_omap. Qed.

Lemma saveGoals_loadGoals ts : saveGoals (loadGoals ts) ts = ts.
Proof.
  apply map_eq. intros k. unfold saveGoals.
  rewrite map_lookup_imap, loadGoals_lookup.
  destruct (ts !! k) as [t|]; simpl; [|done]. by rewrite with_goals_same.
Qed.

Lemma saveGoals_insert ts k t g :
  ts !! k = Some t ->
  saveGoals (<[k := g]> (loadGoals ts)) ts = <[k := with_goals (Some g) t]> ts.
Proof.
  intros Ht. apply map_eq. intros j. unfold saveGoals.
  rewrite map_lookup_imap.
  destruct (decide (k = j)) as [<-|Hne].
  - by rewrite !lookup_insert_eq, Ht.
  - rewrite !lookup_insert_ne, loadGoals_lookup by done.
    destruct (ts !! j) as [t'|]; simpl; [|done]. by rewrite with_goals_same.
Qed.

Lemma setGoal_invalid_period taskId period duration ts :
  isValidGoalPeriod period = false ->
  setGoal taskId period duration ts = (Failure InvalidGoalPeriod, ts).
Proof. intros Hp. unfold setGoal. by rewrite Hp. Qed.

Lemma setGoal_not_positive taskId period duration ts :
  isValidGoalPeriod period = true ->
  duration <= 0 ->
  setGoal taskId period duration ts = (Failure GoalDurationNotPositive, ts).
Proof.
  intros Hp Hd. unfold setGoal. rewrite Hp. simpl.
  by rewrite (proj2 (Z.leb_le _ _) Hd).
Qed.

Lemma setGoal_missing taskId period duration ts :
  isValidGoalPeriod period = true ->
  0 < duration ->
  ts !! taskId = None ->
  JS.inherited taskId = false ->
  setGoal taskId period duration ts = (Failure (TaskDoesNotExist taskId), ts).
Proof.
  intros Hp Hd Ht Hi. unfold setGoal. rewrite Hp. simpl.
  rewrite (proj2 (Z.leb_gt _ _) Hd).
  unfold getTask, JS.get. by rewrite Ht, Hi.
Qed.

(** On an existing task the [(taskId, period)] entry is inserted or
    overwritten, the task's other periods and every other task are kept,
    and the payload tells an update from a first setting. *)
Lemma setGoal_existing taskId period duration ts t :
  isValidGoalPeriod period = true ->
  0 < duration ->
  ts !! taskId = Some t ->
  JS.inherited taskId = false ->
  setGoal taskId period duration ts
  = (Success (bool_decide (is_Some (default ∅ (Task.goals t) !! period))),
     <[taskId := with_goals (Some (<[period := duration]> (default ∅ (Task.goals t)))) t]> ts).
Proof.
  intros Hp Hd Ht Hi. unfold setGoal. rewrite Hp. simpl.
  rewrite (proj2 (Z.leb_gt _ _) Hd).
  unfold getTask, JS.get. rewrite Ht. simpl.
  rewrite loadGoals_lookup, Ht. simpl.
  destruct (Task.goals t) as [taskGoals|]; simpl.
  - by rewrite (saveGoals_insert ts taskId t).
  - rewrite Hi, (saveGoals_insert ts taskId t) by done.
    rewrite lookup_empty, bool_decide_eq_false_2; [done|]. by intros [??].
Qed.

(** C8, where the code departs from it.  The empty store has no task
    [constructor], the period is valid and the duration positive, yet
    [setGoal] reports success (and saves nothing): [getTask] finds
    [Object.prototype.constructor] and takes it for the task. *)
Theorem setGoal_accepts_missing_constructor :
  (∅ : gmap string Task.t) !! "constructor" = None
  /\ setGoal "constructor" "daily" 3600000 ∅ = (Success false, ∅).
Proof. split; reflexivity. Qed.

End SetGoal.

(** ** Goal progress and streaks *)

Section GoalProgress.
Import TaskManager Goals.
Context `{Calendar}.

Lemma getTaskGoals_own ts taskId t taskGoals :
  ts !! taskId = Some t ->
  Task.goals t = Some taskGoals ->
  getTaskGoals taskId ts = taskGoals.
Proof.
  intros Ht Hg. unfold getTaskGoals, JS.get.
  by rewrite loadGoals_lookup, Ht; simpl; rewrite Hg.
Qed.


(** The loop of [getGoalStreak], over any list of period indices. *)

Lemma streak_loop_total achieved indices v :
  v_total (streak_loop achieved indices v)
  = v_total v + count_achieved (List.map achieved indices).
Proof.
  revert v. unfold streak_loop, count_achieved.
  induction indices as [|i indices IH]; intros v; simpl; [lia|].
  rewrite IH. unfold streak_iter.
  destruct (achieved i); simpl; lia.
Qed.

Lemma streak_loop_current_kept achieved indices v :
  Forall (fun i => i <> 0) indices ->
  v_current (streak_loop achieved indices v) = v_current v.
Proof.
  revert v. unfold streak_loop.
  induction indices as [|i indices IH]; intros v Hall; simpl; [done|].
  inversion Hall as [|?? Hi Hrest]; subst.
  rewrite IH by done. unfold streak_iter.
  rewrite (proj2 (Z.eqb_neq _ _) Hi). by destruct (achieved i).
Qed.

(** What the loop leaves in [currentStreak]: 1 when the most recent
    instance is achieved and 0 otherwise, whatever the earlier ones are. *)
Lemma streak_loop_current achieved n :
  (0 < n)%nat ->
  v_current (streak_loop achieved (seqZ 0 (Z.of_nat n)) (mkVars 0 0 0 0))
  = if achieved 0 then 1 else 0.
Proof.
  intros Hn. destruct n as [|n]; [lia|].
  replace (Z.of_nat (S n)) with (Z.succ (Z.of_nat n)) by lia.
  rewrite seqZ_cons by lia. rewrite Z.pred_succ.
  change (streak_loop achieved (0 :: ?l) ?v)
    with (streak_loop achieved l (streak_iter (achieved 0) 0 v)).
  rewrite streak_loop_current_kept.
  - unfold streak_iter. by destruct (achieved 0).
  - apply Forall_seqZ. lia.
Qed.

Lemma leading_run_replicate n l : (n <= leading_run (replicate n true ++ l))%nat.
Proof. induction n as [|n IH]; simpl; lia. Qed.

Lemma leading_run_split l :
  l = (replicate (leading_run l) true ++ drop (leading_run l) l)%list.
Proof.
  induction l as [|[|] l IH]; simpl; [done | | done]. by rewrite <-IH.
Qed.

Lemma replicate_true_rev n : reverse (replicate n true) = replicate n true.
Proof. apply reverse_replicate. Qed.

(** The run of achieved instances that ends the list. *)
Lemma trailing_run_bound l before m :
  l = (before ++ replicate m true)%list -> (m <= leading_run (reverse l))%nat.
Proof.
  intros ->. rewrite reverse_app, replicate_true_rev. apply leading_run_replicate.
Qed.

Lemma trailing_run_split l :
  exists before, l = (before ++ replicate (leading_run (reverse l)) true)%list.
Proof.
  exists (reverse (drop (leading_run (reverse l)) (reverse l))).
  rewrite <-(replicate_true_rev (leading_run (reverse l))), <-reverse_app.
  by rewrite <-leading_run_split, reverse_involutive.
Qed.

Lemma has_run_snoc n l x : has_run n l -> has_run n (l ++ [x]).
Proof.
  intros (before & after & ->). exists before, (after ++ [x])%list.
  by rewrite <-!app_assoc.
Qed.

Lemma has_run_snoc_inv m l x :
  has_run m (l ++ [x]) ->
  has_run m l \/ (exists before, (l ++ [x])%list = (before ++ replicate m true)%list).
Proof.
  intros (before & after & Heq).
  destruct after as [|y after _] using rev_ind.
  - right. exists before. by rewrite app_nil_r in Heq.
  - left. exists before, after.
    rewrite !app_assoc in Heq. apply app_inj_tail in Heq as [-> _].
    by rewrite <-app_assoc.
Qed.

Lemma streak_inv_step l v x i :
  streak_inv l v -> streak_inv (l ++ [x]) (streak_iter x i v).
Proof.
  intros (Htemp & Hnn & Hrun & Hmax). unfold streak_inv, streak_iter.
  rewrite reverse_app. destruct x; simpl.
  - split; [lia|]. split; [lia|]. split.
    + destruct (Z.max_spec (v_longest v) (v_temp v + 1)) as [[? ->]|[? ->]].
      * destruct (trailing_run_split (l ++ [true])) as [before Hb].
        rewrite reverse_app in Hb. simpl in Hb.
        exists before, []. rewrite app_nil_r, Hb at 1. f_equal.
        replace (Z.to_nat (v_temp v + 1)) with (S (leading_run (reverse l))) by lia.
        done.
      * by apply has_run_snoc.
    + intros m [Hm|[before Hb]]%has_run_snoc_inv.
      * apply Hmax in Hm. lia.
      * apply trailing_run_bound in Hb. rewrite reverse_app in Hb. simpl in Hb. lia.
  - split; [done|]. split; [done|]. split; [by apply has_run_snoc|].
    intros m [Hm|[before Hb]]%has_run_snoc_inv; [by apply Hmax|].
    apply trailing_run_bound in Hb. rewrite reverse_app in Hb. simpl in Hb. lia.
Qed.

Lemma streak_loop_inv achieved indices : forall l v,
  streak_inv l v ->
  streak_inv (l ++ List.map achieved indices) (streak_loop achieved indices v).
Proof.
  unfold streak_loop.
  induction indices as [|i indices IH]; intros l v Hinv; simpl.
  - by rewrite app_nil_r.
  - rewrite (cons_middle (achieved i)), app_assoc. apply IH.
    by apply streak_inv_step.
Qed.

Lemma streak_loop_longest achieved indices :
  is_longest_run
    (Z.to_nat (v_longest (streak_loop achieved indices (mkVars 0 0 0 0))))
    (List.map achieved indices).
Proof.
  destruct (streak_loop_inv achieved indices [] (mkVars 0 0 0 0)) as (_ & _ & Hl);
    [|done].
  repeat split; simpl; [done | by exists [], [] |].
  intros m (before & after & Heq). symmetry in Heq.
  apply app_eq_nil in Heq as [_ [Heq _]%app_eq_nil].
  destruct m; [lia | done].
Qed.

(** For a task with a goal, [getGoalStreak] returns the longest run and the
    number of achieved instances of the window, and as [currentStreak] 1 or
    0 according to the most recent instance alone. *)
Lemma getGoalStreak_values ts taskId t taskGoals period g today :
  ts !! taskId = Some t ->
  Task.goals t = Some taskGoals ->
  taskGoals !! Period_name period = Some g ->
  g <> 0 ->
  let achieved i :=
    g <=? getActualTimeForPeriod taskId period (checkDate period today i) ts in
  let flags := List.map achieved (seqZ 0 30) in
  let streak := getGoalStreak taskId period today ts in
  currentStreak streak = (if achieved 0 then 1 else 0)
  /\ is_longest_run (Z.to_nat (longestStreak streak)) flags
  /\ totalAchieved streak = count_achieved flags.
Proof.
  intros Ht Hg Hp Hne achieved flags streak. subst streak.
  unfold getGoalStreak.
  rewrite (getTaskGoals_own ts taskId t taskGoals Ht Hg), Hp.
  rewrite (proj2 (Z.eqb_neq _ _) Hne). simpl.
  split; [apply (streak_loop_current achieved 30); lia|].
  split; [apply streak_loop_longest|].
  apply (streak_loop_total achieved (seqZ 0 30) (mkVars 0 0 0 0)).
Qed.

End GoalProgress.

Section GoalExamples.
Import Goals Utc.


(** The example of the specification: a goal of four hours and one hour
    tracked today give 25 percent, not achieved, three hours remaining. *)
Example goal_progress_one_of_four_hours :
  getGoalProgress "coding" daily Sample.now
    (tasks (run Sample.one_hour_today initial_store))
  = Some (mkGoalProgress daily 14400000 3600000 25 false 10800000 0).
Proof. vm_compute. reflexivity. Qed.

(** The second example of the specification: a goal of two hours and
    three hours tracked today give 150 percent, achieved, one hour over. *)
Example goal_progress_three_of_two_hours :
  getGoalProgress "coding" daily Sample.now
    (tasks (run Sample.two_days_met initial_store))
  = Some (mkGoalProgress daily 7200000 10800000 150 true 0 3600000).
Proof. vm_compute. reflexivity. Qed.

(** The percentage is rounded from the binary64 product: 29/200 is
    represented just below 0.145 and its product with 100 just below 14.5. *)
Example percentage_in_binary64 :
  percentage_of 29 200 = 14 /\ percentage_of 1 4 = 25 /\ percentage_of 3 2 = 150.
Proof. vm_compute. auto. Qed.

(** C3, where the code departs from it.  With the goal met today and
    yesterday and on no earlier day, the number of consecutive achieved
    instances counted from the most recent one is 2, and [getGoalStreak]
    returns [longestStreak] 2 and [totalAchieved] 2 but [currentStreak] 1:
    the loop assigns [currentStreak] only in its first iteration. *)
Theorem currentStreak_counts_one_instance :
  let ts := tasks (run Sample.two_days_met initial_store) in
  let achieved i :=
    2 * Sample.hour
      <=? getActualTimeForPeriod "coding" daily (checkDate daily Sample.now i) ts in
  spec_currentStreak (List.map achieved (seqZ 0 30)) = 2
  /\ count_achieved (List.map achieved (seqZ 0 30)) = 2
  /\ getGoalStreak "coding" daily Sample.now ts = mkStreak 1 2 2.
Proof. vm_compute. auto. Qed.

End GoalExamples.

(** ** Additivity of the reports *)

Section Aggregation.
Import Analytics.

Lemma fold_left_durations l a :
  fold_left (fun sum s => sum + Session.duration s) l a = a + sum_durations l.
Proof.
  revert a. induction l as [|s l IH]; intros a; simpl; [lia|].
  rewrite IH. lia.
Qed.

Lemma fold_left_groups l a :
  fold_left (fun sum g => sum + Group.totalTime g) l a = a + sum_groups l.
Proof.
  revert a. induction l as [|g l IH]; intros a; simpl; [lia|].
  rewrite IH. lia.
Qed.

Lemma sum_groups_perm l1 l2 : l1 ≡ₚ l2 -> sum_groups l1 = sum_groups l2.
Proof. induction 1; simpl; lia. Qed.

Lemma insert_desc_perm g l : insert_desc g l ≡ₚ g :: l.
Proof.
  induction l as [|h l IH]; simpl; [done|].
  destruct (Group.totalTime h <=? Group.totalTime g); [done|].
  rewrite IH. apply perm_swap.
Qed.

Lemma sort_desc_perm l : sort_desc l ≡ₚ l.
Proof.
  induction l as [|g l IH]; simpl; [done|].
  by rewrite insert_desc_perm, IH.
Qed.

Lemma sum_values_insert_fresh (m : gmap string Group.t) k g :
  m !! k = None ->
  sum_groups (Object_values (<[k := g]> m))
  = Group.totalTime g + sum_groups (Object_values m).
Proof.
  intros Hk. unfold Object_values.
  rewrite (sum_groups_perm _ (((k, g) :: map_to_list m).*2)); [done|].
  apply fmap_Permutation. by apply map_to_list_insert.
Qed.

Lemma sum_values_insert_existing (m : gmap string Group.t) k g0 g :
  m !! k = Some g0 ->
  sum_groups (Object_values (<[k := g]> m))
  = Group.totalTime g - Group.totalTime g0 + sum_groups (Object_values m).
Proof.
  intros Hk.
  rewrite <-(insert_delete_id m k g0 Hk) at 2.
  rewrite <-(insert_delete_eq m k g).
  rewrite !sum_values_insert_fresh by apply lookup_delete_eq. lia.
Qed.

Lemma group_from_total l : forall grouped,
  Forall proper_name l ->
  exists grouped',
    group_from grouped l = Some grouped'
    /\ sum_groups (Object_values grouped')
       = sum_groups (Object_values grouped) + sum_durations l.
Proof.
  induction l as [|s l IH]; intros grouped Hall; simpl.
  - eexists. split; [done | lia].
  - inversion Hall as [|?? Hs Hl]; subst. unfold group_session, JS.get.
    red in Hs. rewrite Hs.
    destruct (grouped !! Session.task s) as [g|] eqn:Hg.
    + destruct (IH (<[Session.task s :=
                      Group.mk (Group.name g)
                        (Group.totalTime g + Session.duration s)
                        (Group.sessions g ++ [s])]> grouped) Hl)
        as (grouped' & -> & Hsum).
      eexists. split; [done|]. rewrite Hsum.
      rewrite (sum_values_insert_existing grouped _ g) by done. simpl. lia.
    + destruct (IH (<[Session.task s :=
                      Group.mk (Session.task s) (0 + Session.duration s) [s]]> grouped) Hl)
        as (grouped' & -> & Hsum).
      eexists. split; [done|]. rewrite Hsum.
      rewrite sum_values_insert_fresh by done. simpl. lia.
Qed.

Lemma groupSessionsByTask_total l :
  Forall proper_name l ->
  exists grouped,
    groupSessionsByTask l = Some grouped
    /\ sum_groups (Object_values grouped) = sum_durations l.
Proof.
  intros Hall. destruct (group_from_total l ∅ Hall) as (grouped & Hg & Hsum).
  exists grouped. split; [done|]. rewrite Hsum.
  unfold Object_values. by rewrite map_to_list_empty.
Qed.

Lemma filter_proper l a b :
  Forall proper_name l -> Forall proper_name (filterSessionsByDateRange l a b).
Proof.
  intros Hall. unfold filterSessionsByDateRange.
  induction Hall as [|s l Hs Hl IH]; simpl; [done|].
  destruct (isWithinInterval _ _ _); [by constructor | done].
Qed.

Lemma bucket_total l a b :
  Forall proper_name l ->
  exists bk,
    bucket l a b = Some bk
    /\ Bucket.totalTime bk = sum_durations (filterSessionsByDateRange l a b).
Proof.
  intros Hall. unfold bucket.
  destruct (groupSessionsByTask_total _ (filter_proper l a b Hall))
    as (grouped & -> & _). simpl.
  eexists. split; [done|]. simpl. rewrite fold_left_durations. lia.
Qed.

(** The buckets exist for any list of sub-intervals. *)
Lemma buckets_exist l ivs :
  Forall proper_name l ->
  exists bs,
    mapM (fun iv => bucket l iv.1 iv.2) ivs = Some bs
    /\ length bs = length ivs.
Proof.
  intros Hall. induction ivs as [|iv ivs (bs & IH & Hlen)]; simpl.
  - by exists [].
  - destruct (bucket_total l iv.1 iv.2 Hall) as (bk & -> & _). simpl.
    rewrite IH. simpl. exists (bk :: bs). split; [done|]. simpl. by rewrite Hlen.
Qed.

Lemma tiled_bounds hi ivs : forall lo, tiled lo hi ivs = true -> lo <= hi + 1.
Proof.
  induction ivs as [|iv ivs IH]; intros lo; simpl.
  - lia.
  - intros [[Ha Hab]%andb_true_iff Hrest]%andb_true_iff.
    apply IH in Hrest. lia.
Qed.

Lemma filter_split l lo mid hi :
  lo <= mid + 1 -> mid <= hi ->
  sum_durations (filterSessionsByDateRange l lo mid)
  + sum_durations (filterSessionsByDateRange l (mid + 1) hi)
  = sum_durations (filterSessionsByDateRange l lo hi).
Proof.
  intros Hlo Hhi. unfold filterSessionsByDateRange, isWithinInterval.
  induction l as [|s l IH]; simpl; [done|].
  destruct (Z.leb_spec lo (Session.startTime s)),
           (Z.leb_spec (Session.startTime s) mid),
           (Z.leb_spec (mid + 1) (Session.startTime s)),
           (Z.leb_spec (Session.startTime s) hi); simpl; lia.
Qed.

Lemma filter_empty_range l lo hi :
  hi < lo -> filterSessionsByDateRange l lo hi = [].
Proof.
  intros Hlt. unfold filterSessionsByDateRange, isWithinInterval.
  induction l as [|s l IH]; simpl; [done|].
  destruct (Z.leb_spec lo (Session.startTime s)),
           (Z.leb_spec (Session.startTime s) hi); simpl; auto; lia.
Qed.

(** Over sub-intervals that tile [lo .. hi], the bucket totals add up to
    the total of the sessions that start within [lo .. hi]. *)
Lemma buckets_tiled l hi ivs : forall lo,
  Forall proper_name l ->
  tiled lo hi ivs = true ->
  exists bs,
    mapM (fun iv => bucket l iv.1 iv.2) ivs = Some bs
    /\ length bs = length ivs
    /\ sum_buckets bs = sum_durations (filterSessionsByDateRange l lo hi).
Proof.
  induction ivs as [|iv ivs IH]; intros lo Hall; simpl.
  - intros Hlo%Z.eqb_eq. exists []. repeat split.
    rewrite filter_empty_range; [done | lia].
  - intros [[Ha%Z.eqb_eq Hab%Z.leb_le]%andb_true_iff Hrest]%andb_true_iff.
    destruct (IH _ Hall Hrest) as (bs & -> & Hlen & Hsum).
    destruct (bucket_total l iv.1 iv.2 Hall) as (bk & -> & Hbk). simpl.
    exists (bk :: bs). split; [done|]. split; [simpl; by rewrite Hlen|].
    simpl. rewrite Hbk, Hsum, Ha.
    apply tiled_bounds in Hrest. apply filter_split; lia.
Qed.


Lemma allSessions_proper ts : store_ok ts -> Forall proper_name (allSessions ts).
Proof.
  intros Hok. unfold allSessions, Object_values.
  apply Forall_concat, Forall_fmap, Forall_fmap, Forall_forall.
  intros [k t] Hkt%elem_of_map_to_list. simpl.
  destruct (Hok _ _ Hkt) as (Hi & _ & _ & Hall).
  eapply Forall_impl; [exact Hall|]. intros s Hs. red. by rewrite Hs.
Qed.

(** Any report: the ranked group totals add up to [totalTime]. *)
Lemma report_groups ts lo hi ivs :
  store_ok ts ->
  exists r,
    report ts lo hi ivs = Some r
    /\ sum_groups (Report.tasks r) = Report.totalTime r
    /\ Report.totalTime r
       = sum_durations (filterSessionsByDateRange (allSessions ts) lo hi)
    /\ mapM (fun iv =>
               bucket (filterSessionsByDateRange (allSessions ts) lo hi) iv.1 iv.2) ivs
       = Some (Report.breakdown r).
Proof.
  intros Hok. unfold report.
  pose proof (filter_proper _ lo hi (allSessions_proper ts Hok)) as Hall.
  destruct (groupSessionsByTask_total _ Hall) as (grouped & -> & Hsum). simpl.
  destruct (buckets_exist _ ivs Hall) as (bs & -> & _). simpl.
  eexists. split; [done|]. simpl. unfold total_of_groups.
  rewrite fold_left_groups, (sum_groups_perm _ _ (sort_desc_perm _)), Hsum.
  repeat split; lia.
Qed.


End Aggregation.

Section BreakdownsWhenTiled.
Import Analytics.
Context `{Calendar}.




End BreakdownsWhenTiled.

Section AggregationExamples.
Import Analytics Utc UtcCycle.















(** The tiling carries over to every fixed offset from UTC. *)





(** The week of the sample history: two hours of coding on Monday, two
    hours of email (three elapsed, one paused) on Wednesday, three hours
    of coding on Thursday. *)
Example weekly_breakdown_of_sample :
  (fun r => (Report.totalTime r, Bucket.totalTime <$> Report.breakdown r,
             (fun g => (Group.name g, Group.totalTime g)) <$> Report.tasks r))
    <$> getWeeklyAnalytics Sample.now (tasks (run Sample.a_week initial_store))
  = Some (7 * Sample.hour,
          [2 * Sample.hour; 0; 2 * Sample.hour; 3 * Sample.hour; 0; 0; 0],
          [("coding", 5 * Sample.hour); ("email", 2 * Sample.hour)]).
Proof. vm_compute. reflexivity. Qed.

(** The example of the specification: 6 hours in the week, on Monday,
    Wednesday and Friday. *)
Example weekly_breakdown_of_spec_week :
  (fun r => (Report.totalTime r, Bucket.totalTime <$> Report.breakdown r))
    <$> getWeeklyAnalytics Sample.now (tasks (run Sample.spec_week initial_store))
  = Some (6 * Sample.hour,
          [2 * Sample.hour; 0; 3 * Sample.hour; 0; 1 * Sample.hour; 0; 0]).
Proof. vm_compute. reflexivity. Qed.

End AggregationExamples.


(** * Further properties of the sources *)

(** ** The tracking state machine *)

Section Machine.
Import TaskManager TimeTracker Goals.

(** X1.  An operation that reports a failure has changed nothing: each of
    the tracking transitions, of the task operations and of the goal
    operations either succeeds or returns the state it was given. *)
Theorem failed_operation_changes_nothing st ts taskId period now duration :
  (succeeded (startTracking taskId now st).1 = true
   \/ (startTracking taskId now st).2 = st)
  /\ (succeeded (stopTracking now st).1 = true \/ (stopTracking now st).2 = st)
  /\ (succeeded (pauseTracking now st).1 = true \/ (pauseTracking now st).2 = st)
  /\ (succeeded (resumeTracking now st).1 = true \/ (resumeTracking now st).2 = st)
  /\ (succeeded (createTask taskId now ts).1 = true
      \/ (createTask taskId now ts).2 = ts)
  /\ (succeeded (deleteTask taskId ts).1 = true \/ (deleteTask taskId ts).2 = ts)
  /\ (succeeded (setGoal taskId period duration ts).1 = true
      \/ (setGoal taskId period duration ts).2 = ts).
Proof.
  repeat split.
  - unfold startTracking. destruct (negb _); [by right|].
    destruct (JS.truthy_str _); [by right | by left].
  - unfold stopTracking. destruct (JS.truthy_str _); [by left | by right].
  - unfold pauseTracking. destruct (JS.truthy_str _); [|by right].
    destruct (Tracking.isPaused _); [by right | by left].
  - unfold resumeTracking. destruct (JS.truthy_str _); [|by right].
    destruct (negb _); [by right | by left].
  - destruct (createTask_cases taskId now ts) as [[e ->]|(_ & _ & _ & ->)];
      [by right | by left].
  - unfold deleteTask. destruct (negb _); [by right | by left].
  - unfold setGoal.
    destruct (negb (isValidGoalPeriod period)); [by right|].
    destruct (duration <=? 0); [by right|].
    destruct (negb _); [by right|]. left. by destruct (JS.get _ _).
Qed.

Lemma startTracking_cases taskId now st :
  startTracking taskId now st = (Failure (TaskDoesNotExist taskId), st)
  \/ (exists current, startTracking taskId now st = (Failure (AlreadyTracking current), st))
  \/ (JS.truthy (getTask taskId (tasks st)) = true
      /\ JS.truthy_str (Tracking.currentTask (tracking st)) = None
      /\ startTracking taskId now st
         = (Success now,
            mkStore (tasks st)
              (Tracking.mk (Some taskId) (Some now) None false
                 (Tracking.sessions (tracking st))))).
Proof.
  unfold startTracking. destruct (JS.truthy _) eqn:Ht; simpl; [|by left].
  destruct (JS.truthy_str _) eqn:Hc; [right; left; eauto|].
  right. right. done.
Qed.

Lemma started_name_nonempty taskId ts :
  store_ok ts -> JS.truthy (getTask taskId ts) = true -> taskId <> "".
Proof.
  intros Hok [[t Ht]|Hi]%get_truthy; [|by apply inherited_nonempty].
  by destruct (Hok _ _ Ht) as (_ & ? & _).
Qed.

Lemma exec_coherent op st :
  store_ok (tasks st) ->
  tracking_coherent (tracking st) ->
  tracking_coherent (tracking (exec op st)).
Proof.
  intros Hok Hco. pose proof Hco as (Hp & Hs & Hpc & Hne).
  destruct op as [taskName now|taskId|taskId now|now|now|now|taskId p d|taskId p];
    simpl; try exact Hco.
  - destruct (startTracking_cases taskId now st) as [->|[[c ->]|(Ht & _ & ->)]];
      [exact Hco | exact Hco |]. simpl.
    pose proof (started_name_nonempty _ _ Hok Ht) as Hn.
    repeat split; try done; eauto; try (by intros [??]). simpl. congruence.
  - unfold stopTracking. destruct (JS.truthy_str _); [|exact Hco]. simpl.
    repeat split; try done; by intros [??].
  - unfold pauseTracking.
    destruct (JS.truthy_str _) as [c|] eqn:Hc; [|exact Hco].
    destruct (Tracking.isPaused _) eqn:Hip; [exact Hco|]. simpl.
    apply truthy_str_Some in Hc as [Hc ?].
    rewrite Hc in Hs. repeat split; simpl; eauto; try congruence; intuition eauto.
  - unfold resumeTracking.
    destruct (JS.truthy_str _) as [c|] eqn:Hc; [|exact Hco].
    destruct (Tracking.isPaused _) eqn:Hip; [|exact Hco]. simpl.
    apply truthy_str_Some in Hc as [Hc ?].
    rewrite Hc in Hs.
    repeat split; simpl; eauto; try congruence; try (by intros [??]);
      intuition eauto.
Qed.

Lemma run_coherent ops : forall st,
  store_ok (tasks st) ->
  tracking_coherent (tracking st) ->
  tracking_coherent (tracking (run ops st)).
Proof.
  induction ops as [|op ops IH]; intros st Hok Hc; simpl; [done|].
  apply IH; [by apply exec_ok | by apply exec_coherent].
Qed.

Lemma initial_coherent : tracking_coherent Tracking.initial.
Proof. repeat split; try done; by intros [??]. Qed.

(** X2.  After every sequence of operations the tracking record is
    coherent: [pausedTime] is set exactly when [isPaused] is, [startTime]
    exactly when [currentTask] is, a paused record has a current task, and
    the current task is never the empty string. *)
Theorem tracking_record_coherent ops :
  tracking_coherent (tracking (run ops initial_store)).
Proof.
  apply run_coherent; [apply map_Forall_empty | apply initial_coherent].
Qed.


Lemma setGoal_store taskId period duration ts :
  exists goals, (setGoal taskId period duration ts).2 = saveGoals goals ts.
Proof.
  unfold setGoal.
  repeat (match goal with
          | |- context [if ?b then _ else _] => destruct b
          | |- context [match JS.get ?o ?k with _ => _ end] => destruct (JS.get o k)
          end; simpl; eauto using eq_sym, saveGoals_loadGoals).
Qed.

Lemma removeGoal_store taskId period ts :
  exists goals, (removeGoal taskId period ts).2 = saveGoals goals ts.
Proof.
  unfold removeGoal.
  destruct (JS.truthy_str period);
    destruct (JS.get (loadGoals ts) taskId) as [taskGoals| |];
    simpl; eauto using eq_sym, saveGoals_loadGoals.
  destruct (match JS.get taskGoals s with JS.Own g => g =? 0
            | JS.Inherited => false | JS.Undefined => true end);
    simpl; eauto using eq_sym, saveGoals_loadGoals.
Qed.

Lemma saveGoals_lookup goals ts k :
  saveGoals goals ts !! k = with_goals (goals !! k) <$> ts !! k.
Proof. unfold saveGoals. rewrite map_lookup_imap. by destruct (ts !! k). Qed.

Lemma stopTracking_cases now st :
  (JS.truthy_str (Tracking.currentTask (tracking st)) = None
   /\ stopTracking now st = (Failure NoActiveSession, st))
  \/ (exists current,
        JS.truthy_str (Tracking.currentTask (tracking st)) = Some current
        /\ stopTracking now st
           = (Success (stop_duration (tracking st) now,
                       Session.mk current (JS.Date_getTime (Tracking.startTime (tracking st)))
                                  now (stop_duration (tracking st) now)),
              mkStore
                (match tasks st !! current with
                 | Some task =>
                     <[current :=
                         Task.mk (Task.id task) (Task.name task) (Task.created task)
                           (Task.totalTime task + stop_duration (tracking st) now)
                           (Task.sessions task ++
                              [Session.mk current
                                 (JS.Date_getTime (Tracking.startTime (tracking st)))
                                 now (stop_duration (tracking st) now)])
                           (Task.goals task)]> (tasks st)
                 | None => tasks st
                 end)
                (Tracking.mk None None None false (Tracking.sessions (tracking st))))).
Proof.
  unfold stopTracking. destruct (JS.truthy_str _) as [current|]; [|by left].
  right. exists current. split; [done|]. unfold getTask, JS.get.
  destruct (tasks st !! current); [done|]. by destruct (JS.inherited current).
Qed.

(** X6.  No operation rewrites history: a task that is in the store before
    an operation is afterwards either gone, and then the operation was the
    deletion of that task, or still there with its id, name and creation
    date and with its earlier sessions as a prefix of its session list. *)
Theorem sessions_only_grow op st taskId task :
  tasks st !! taskId = Some task ->
  match tasks (exec op st) !! taskId with
  | Some task' =>
      Task.sessions task `prefix_of` Task.sessions task'
      /\ Task.id task' = Task.id task
      /\ Task.name task' = Task.name task
      /\ Task.created task' = Task.created task
  | None => op = DoDeleteTask taskId
  end.
Proof.
  intros Ht.
  destruct op as [taskName now|k|k now|now|now|now|k p d|k p]; simpl.
  - destruct (createTask_cases taskName now (tasks st)) as [[e ->]|(_ & Hn & _ & ->)];
      simpl; [by rewrite Ht|].
    rewrite lookup_insert_ne by congruence. by rewrite Ht.
  - unfold deleteTask. destruct (negb _); simpl; [by rewrite Ht|].
    destruct (decide (k = taskId)) as [->|Hne].
    + by rewrite lookup_delete_eq.
    + rewrite lookup_delete_ne by done. by rewrite Ht.
  - by rewrite startTracking_tasks, Ht.
  - destruct (stopTracking_cases now st) as [[_ ->]|(current & _ & ->)];
      simpl; [by rewrite Ht|].
    destruct (decide (current = taskId)) as [->|Hne].
    + rewrite Ht, lookup_insert_eq. simpl. split; [|done]. by apply prefix_app_r.
    + destruct (tasks st !! current); rewrite ?lookup_insert_ne by done;
        by rewrite Ht.
  - by rewrite pauseTracking_tasks, Ht.
  - by rewrite resumeTracking_tasks, Ht.
  - destruct (setGoal_store k p d (tasks st)) as [goals ->].
    by rewrite saveGoals_lookup, Ht.
  - destruct (removeGoal_store k p (tasks st)) as [goals ->].
    by rewrite saveGoals_lookup, Ht.
Qed.

Lemma sessions_only_grow_witness :
  match tasks (exec (DoStopTracking 900)
                 (run [DoCreateTask "coding" 0; DoStartTracking "coding" 100;
                       DoStopTracking 400; DoStartTracking "coding" 500]
                    initial_store)) !! "coding" with
  | Some task' =>
      [Session.mk "coding" 100 400 300] `prefix_of` Task.sessions task'
      /\ Task.id task' = "coding"
      /\ Task.name task' = "coding"
      /\ Task.created task' = 0
  | None => DoStopTracking 900 = DoDeleteTask "coding"
  end.
Proof.
  apply (sessions_only_grow (DoStopTracking 900)
           (run [DoCreateTask "coding" 0; DoStartTracking "coding" 100;
                 DoStopTracking 400; DoStartTracking "coding" 500] initial_store)
           "coding"
           (Task.mk "coding" "coding" 0 300 [Session.mk "coding" 100 400 300] None)).
  vm_compute. reflexivity.
Defined.


Lemma tracking_in_time_later t t' tr :
  t <= t' -> tracking_in_time t tr -> tracking_in_time t' tr.
Proof.
  unfold tracking_in_time. intros Hle.
  destruct (Tracking.startTime tr); [|done].
  destruct (Tracking.pausedTime tr); lia.
Qed.

(** One step of a run whose clock does not go back: the tracking record
    stays within the clock reading and the recorded sessions stay sane. *)
Lemma exec_in_time op st t t' :
  store_ok (tasks st) ->
  tracking_coherent (tracking st) ->
  tracking_in_time t (tracking st) ->
  map_Forall (fun _ task => Forall session_sane (Task.sessions task)) (tasks st) ->
  t <= t' ->
  (forall now, clock op = Some now -> now = t') ->
  tracking_in_time t' (tracking (exec op st))
  /\ map_Forall (fun _ task => Forall session_sane (Task.sessions task))
                (tasks (exec op st)).
Proof.
  intros Hok (Hp & Hs & Hpc & Hne) Hin Hsane Hle Hclock.
  pose proof (tracking_in_time_later _ _ _ Hle Hin) as Hin'.
  destruct op as [taskName now|k|k now|now|now|now|k p d|k p]; simpl.
  - split; [done|].
    destruct (createTask_cases taskName now (tasks st)) as [[e ->]|(_ & _ & _ & ->)];
      [done|]. simpl. apply map_Forall_insert_2; [by constructor | done].
  - split; [done|]. unfold deleteTask. destruct (negb _); simpl; [done|].
    by apply map_Forall_delete.
  - rewrite startTracking_tasks. split; [|done].
    destruct (startTracking_cases k now st) as [->|[[c ->]|(_ & _ & ->)]];
      [done | done |]. simpl.
    rewrite (Hclock now eq_refl). unfold tracking_in_time. simpl. lia.
  - destruct (stopTracking_cases now st) as [[_ ->]|(current & Hc & ->)];
      [done|]. simpl. split; [done|].
    destruct (tasks st !! current) as [task|] eqn:Ht; [|done].
    apply map_Forall_insert_2; [|done]. simpl.
    apply Forall_app. split; [exact (Hsane _ _ Ht)|].
    constructor; [|done]. unfold session_sane, stop_duration. simpl.
    apply truthy_str_Some in Hc as [Hc _].
    destruct Hs as [Hs _]. destruct Hs as [start Hstart]; [by rewrite Hc|].
    rewrite (Hclock now eq_refl).
    unfold tracking_in_time in Hin. rewrite Hstart in Hin. rewrite Hstart. simpl.
    destruct (Tracking.pausedTime (tracking st)); lia.
  - rewrite pauseTracking_tasks. split; [|done].
    unfold pauseTracking.
    destruct (JS.truthy_str _) as [c|] eqn:Hc; [|done].
    destruct (Tracking.isPaused _) eqn:Hip; [done|]. simpl.
    rewrite (Hclock now eq_refl).
    unfold tracking_in_time in *. simpl.
    apply truthy_str_Some in Hc as [Hc _].
    destruct Hs as [Hs _]. destruct Hs as [start Hstart]; [by rewrite Hc|].
    rewrite Hstart in *. lia.
  - rewrite resumeTracking_tasks. split; [|done].
    unfold resumeTracking.
    destruct (JS.truthy_str _) as [c|] eqn:Hc; [|done].
    destruct (Tracking.isPaused _) eqn:Hip; [|done]. simpl.
    rewrite (Hclock now eq_refl).
    unfold tracking_in_time in *. simpl.
    apply truthy_str_Some in Hc as [Hc _].
    destruct Hs as [Hs _]. destruct Hs as [start Hstart]; [by rewrite Hc|].
    destruct Hp as [Hp _]. destruct Hp as [paused Hpaused]; [done|].
    rewrite Hstart, Hpaused in *. simpl. lia.
  - split; [done|]. destruct (setGoal_store k p d (tasks st)) as [goals ->].
    intros j task'. rewrite saveGoals_lookup.
    destruct (tasks st !! j) as [task|] eqn:Ht; simpl; [|done].
    intros [= <-]. exact (Hsane _ _ Ht).
  - split; [done|]. destruct (removeGoal_store k p (tasks st)) as [goals ->].
    intros j task'. rewrite saveGoals_lookup.
    destruct (tasks st !! j) as [task|] eqn:Ht; simpl; [|done].
    intros [= <-]. exact (Hsane _ _ Ht).
Qed.

Lemma run_in_time ops : forall st t,
  store_ok (tasks st) ->
  tracking_coherent (tracking st) ->
  tracking_in_time t (tracking st) ->
  map_Forall (fun _ task => Forall session_sane (Task.sessions task)) (tasks st) ->
  clock_monotone t ops = true ->
  map_Forall (fun _ task => Forall session_sane (Task.sessions task))
             (tasks (run ops st)).
Proof.
  induction ops as [|op ops IH]; intros st t Hok Hco Hin Hsane Hmono; [done|].
  simpl in Hmono. simpl.
  destruct (clock op) as [now|] eqn:Hclock.
  - apply andb_true_iff in Hmono as [Hle%Z.leb_le Hmono].
    destruct (exec_in_time op st t now Hok Hco Hin Hsane Hle) as [Hin' Hsane'];
      [congruence|].
    apply (IH _ now); auto using exec_ok, exec_coherent.
  - destruct (exec_in_time op st t t Hok Hco Hin Hsane) as [Hin' Hsane'];
      [lia | congruence |].
    apply (IH _ t); auto using exec_ok, exec_coherent.
Qed.

(** X3.  When the clock never goes back along a sequence of operations,
    every recorded session has a non-negative duration that is at most the
    span from its start to its end. *)
Theorem sessions_sane_under_monotone_clock t ops :
  clock_monotone t ops = true ->
  map_Forall (fun _ task => Forall session_sane (Task.sessions task))
             (tasks (run ops initial_store)).
Proof.
  intros Hmono.
  apply (run_in_time ops initial_store t);
    [apply map_Forall_empty | apply initial_coherent | done
    | apply map_Forall_empty | done].
Qed.

Lemma sessions_sane_under_monotone_clock_witness :
  map_Forall (fun _ task => Forall session_sane (Task.sessions task))
             (tasks (run Sample.a_week initial_store)).
Proof.
  apply (sessions_sane_under_monotone_clock 0 Sample.a_week).
  vm_compute. reflexivity.
Defined.

Lemma run_pause_resume pairs : forall st current start sessions,
  current <> "" ->
  tracking st = Tracking.mk (Some current) (Some start) None false sessions ->
  run (pause_resume_ops pairs) st
  = mkStore (tasks st)
      (Tracking.mk (Some current) (Some (start + paused_total pairs)) None false
                   sessions).
Proof.
  induction pairs as [|[p r] pairs IH]; intros st current start sessions Hne Htr.
  - simpl. destruct st as [ts tr]. simpl in Htr. subst tr.
    do 3 f_equal. lia.
  - simpl. unfold pauseTracking at 1. rewrite Htr. simpl.
    rewrite bool_decide_eq_false_2 by done.
    unfold resumeTracking at 1. simpl. rewrite bool_decide_eq_false_2 by done.
    rewrite (IH _ current (start + (r - p)) sessions) by done. simpl.
    do 3 f_equal. lia.
Qed.

(** X4.  A tracking session with any number of pause/resume cycles: after
    any history, when [start(t)] succeeds at [t0], is followed by the
    pause/resume pairs [(p1, r1), ..., (pn, rn)] and stopped at [t3], the
    stop succeeds with duration [(t3 - t0)] minus the sum of the
    [(ri - pi)]; the session runs from [t0] plus that sum to [t3]; the
    tracking record is reset, and the stored task receives the session at
    the end of its sessions and the duration on its total (a started id
    that names no stored task leaves the tasks as they were). *)
Theorem pause_resume_cycles ops taskId t0 pairs t3 :
  succeeded (startTracking taskId t0 (run ops initial_store)).1 = true ->
  exists session st',
    stopTracking t3
      (run (pause_resume_ops pairs)
           (startTracking taskId t0 (run ops initial_store)).2)
    = (Success (t3 - t0 - paused_total pairs, session), st')
    /\ session
       = Session.mk taskId (t0 + paused_total pairs) t3 (t3 - t0 - paused_total pairs)
    /\ tracking st'
       = Tracking.mk None None None false
                     (Tracking.sessions (tracking (run ops initial_store)))
    /\ tasks st'
       = match tasks (run ops initial_store) !! taskId with
         | Some task =>
             <[taskId := Task.mk (Task.id task) (Task.name task) (Task.created task)
                           (Task.totalTime task + (t3 - t0 - paused_total pairs))
                           (Task.sessions task ++ [session])
                           (Task.goals task)]> (tasks (run ops initial_store))
         | None => tasks (run ops initial_store)
         end.
Proof.
  intros Hs. pose proof (startTracking_name ops taskId t0 Hs) as Hne.
  destruct (startTracking_cases taskId t0 (run ops initial_store))
    as [Hf|[[c Hf]|(_ & _ & Hst)]]; rewrite ?Hf in Hs; try done.
  rewrite Hst. simpl.
  rewrite (run_pause_resume pairs _ taskId t0
             (Tracking.sessions (tracking (run ops initial_store)))) by done.
  unfold stopTracking, stop_duration. simpl.
  rewrite bool_decide_eq_false_2 by done.
  replace (t3 - (t0 + paused_total pairs)) with (t3 - t0 - paused_total pairs) by lia.
  eexists _, _. split; [reflexivity|]. split; [reflexivity|]. split; [reflexivity|].
  unfold getTask, JS.get. destruct (tasks (run ops initial_store) !! taskId); [done|].
  by destruct (JS.inherited taskId).
Qed.

Lemma pause_resume_cycles_witness :
  exists session st',
    stopTracking 10000
      (run (pause_resume_ops [(2000, 3000); (5000, 5500); (7000, 9000)])
           (startTracking "coding" 1000 (run [DoCreateTask "coding" 0] initial_store)).2)
    = (Success (10000 - 1000 - paused_total [(2000, 3000); (5000, 5500); (7000, 9000)],
                session), st')
    /\ session
       = Session.mk "coding"
           (1000 + paused_total [(2000, 3000); (5000, 5500); (7000, 9000)]) 10000
           (10000 - 1000 - paused_total [(2000, 3000); (5000, 5500); (7000, 9000)])
    /\ tracking st'
       = Tracking.mk None None None false
           (Tracking.sessions (tracking (run [DoCreateTask "coding" 0] initial_store)))
    /\ tasks st'
       = match tasks (run [DoCreateTask "coding" 0] initial_store) !! "coding" with
         | Some task =>
             <["coding" := Task.mk (Task.id task) (Task.name task) (Task.created task)
                 (Task.totalTime task
                  + (10000 - 1000
                     - paused_total [(2000, 3000); (5000, 5500); (7000, 9000)]))
                 (Task.sessions task ++ [session])
                 (Task.goals task)]>
               (tasks (run [DoCreateTask "coding" 0] initial_store))
         | None => tasks (run [DoCreateTask "coding" 0] initial_store)
         end.
Proof.
  apply (pause_resume_cycles [DoCreateTask "coding" 0] "coding" 1000
           [(2000, 3000); (5000, 5500); (7000, 9000)] 10000).
  reflexivity.
Defined.

(** X5.  After every sequence of operations [getStatus] and [stopTracking]
    agree: when a stop at the same clock reading would succeed with
    duration [d], the status is tracking with elapsed time [max(0, d)] and
    shows the stored task, start and paused flag; when the stop would fail,
    the status is the idle one with elapsed time 0. *)
Theorem status_agrees_with_stop ops now :
  match (stopTracking now (run ops initial_store)).1 with
  | Success (d, _) =>
      getStatus now (run ops initial_store)
      = Status.mk true
          (Tracking.currentTask (tracking (run ops initial_store)))
          (Tracking.startTime (tracking (run ops initial_store)))
          (Tracking.isPaused (tracking (run ops initial_store)))
          (Z.max 0 d)
  | Failure _ => getStatus now (run ops initial_store) = Status.mk false None None false 0
  end.
Proof.
  pose proof (run_coherent ops initial_store (map_Forall_empty _) initial_coherent)
    as (Hp & Hs & _ & _).
  unfold getStatus.
  destruct (stopTracking_cases now (run ops initial_store))
    as [[Hc ->]|(current & Hc & ->)]; rewrite Hc; simpl; [done|].
  apply truthy_str_Some in Hc as [Hc _].
  destruct Hs as [Hs _]. destruct Hs as [start Hstart]; [by rewrite Hc|].
  rewrite Hc, Hstart. simpl. f_equal. unfold stop_duration. rewrite Hstart. simpl.
  destruct (Tracking.pausedTime (tracking (run ops initial_store)))
    as [paused|] eqn:Hpaused.
  - rewrite (proj2 Hp) by eauto. simpl. f_equal. lia.
  - destruct (Tracking.isPaused (tracking (run ops initial_store))) eqn:Hip; [|done].
    destruct (proj1 Hp eq_refl) as [? [=]].
Qed.

End Machine.

(** ** The task store and the goal registry *)

Section StoreAndGoals.
Import TaskManager TimeTracker Goals.

(** X7.  Creating a task and deleting it again restores the store: when
    [createTask] succeeds, [deleteTask] of the same name succeeds on the
    result and gives back the store as it was before. *)
Theorem create_then_delete taskName now ts :
  succeeded (createTask taskName now ts).1 = true ->
  deleteTask taskName (createTask taskName now ts).2 = (Success tt, ts).
Proof.
  destruct (createTask_cases taskName now ts) as [[e ->]|(_ & Hn & _ & ->)];
    [done|]. intros _. simpl.
  unfold deleteTask, JS.get. rewrite lookup_insert_eq. simpl.
  by rewrite delete_insert_id.
Qed.

Lemma create_then_delete_witness :
  deleteTask "email"
    (createTask "email" 5 (tasks (run [DoCreateTask "coding" 0] initial_store))).2
  = (Success tt, tasks (run [DoCreateTask "coding" 0] initial_store)).
Proof.
  apply (create_then_delete "email" 5
           (tasks (run [DoCreateTask "coding" 0] initial_store))).
  reflexivity.
Defined.

(** Sorting with [sort_by]. *)

Lemma insert_by_perm {A} (before : A -> A -> bool) x l :
  insert_by before x l ≡ₚ x :: l.
Proof.
  induction l as [|h l IH]; simpl; [done|].
  destruct (before x h); [done|]. rewrite IH. apply perm_swap.
Qed.

Lemma sort_by_perm {A} (before : A -> A -> bool) l : sort_by before l ≡ₚ l.
Proof.
  induction l as [|x l IH]; simpl; [done|].
  by rewrite insert_by_perm, IH.
Qed.

Lemma insert_by_sorted {A} (before : A -> A -> bool)
    (R : A -> A -> Prop) x l :
  (forall a b, before a b = true -> R a b) ->
  (forall a b, before a b = false -> R b a) ->
  (forall a b c, R a b -> R b c -> R a c) ->
  Sorted.StronglySorted R l ->
  Sorted.StronglySorted R (insert_by before x l).
Proof.
  intros Ht Hf Htrans Hl.
  induction Hl as [|h l Hl IH Hall]; simpl.
  - constructor; [constructor | constructor].
  - destruct (before x h) eqn:Hb.
    + constructor; [by constructor|].
      constructor; [by apply Ht|].
      eapply Forall_impl; [exact Hall|]. intros c Hc. eapply Htrans; eauto.
    + constructor; [done|].
      eapply Permutation_Forall; [symmetry; apply insert_by_perm|].
      constructor; [by apply Hf | done].
Qed.

Lemma sort_by_sorted {A} (before : A -> A -> bool)
    (R : A -> A -> Prop) l :
  (forall a b, before a b = true -> R a b) ->
  (forall a b, before a b = false -> R b a) ->
  (forall a b c, R a b -> R b c -> R a c) ->
  Sorted.StronglySorted R (sort_by before l).
Proof.
  intros Ht Hf Htrans. induction l as [|x l IH]; simpl; [constructor|].
  by apply insert_by_sorted.
Qed.

(** X9.  [listTasks] returns every task of the store exactly once, ordered
    by creation date: each task is created no later than all the tasks
    listed after it. *)
Theorem listTasks_sorted_by_creation ts :
  listTasks ts ≡ₚ Object_values ts
  /\ Sorted.StronglySorted (fun a b => Task.created a <= Task.created b)
       (listTasks ts).
Proof.
  split; [apply sort_by_perm|].
  apply sort_by_sorted.
  - intros a b Hab. by apply Z.leb_le.
  - intros a b Hab. apply Z.leb_gt in Hab. lia.
  - intros a b c ??. lia.
Qed.


Lemma exec_goals_ok op st :
  map_Forall (fun _ t => goals_ok t) (tasks st) ->
  map_Forall (fun _ t => goals_ok t) (tasks (exec op st)).
Proof.
  intros Hok.
  destruct op as [taskName now|k|k now|now|now|now|k p d|k p]; simpl;
    rewrite ?startTracking_tasks, ?pauseTracking_tasks, ?resumeTracking_tasks;
    try done.
  - destruct (createTask_cases taskName now (tasks st)) as [[e ->]|(_ & _ & _ & ->)];
      [done|]. simpl. by apply map_Forall_insert_2.
  - unfold deleteTask. destruct (negb _); simpl; [done|].
    by apply map_Forall_delete.
  - destruct (stopTracking_cases now st) as [[_ ->]|(current & _ & ->)];
      [done|]. simpl.
    destruct (tasks st !! current) as [task|] eqn:Ht; [|done].
    apply map_Forall_insert_2; [|done]. exact (Hok _ _ Ht).
  - unfold setGoal.
    destruct (isValidGoalPeriod p) eqn:Hp; simpl; [|done].
    destruct (Z.leb_spec d 0) as [|Hd]; [done|].
    destruct (negb _); [done|].
    assert (forall taskGoals : gmap string Z,
               (forall q g, taskGoals !! q = Some g ->
                            isValidGoalPeriod q = true /\ 0 < g) ->
               map_Forall (fun _ t => goals_ok t)
                 (saveGoals (<[k := <[p := d]> taskGoals]> (loadGoals (tasks st)))
                            (tasks st))) as Hset.
    { intros taskGoals Hg j t'. rewrite saveGoals_lookup.
      destruct (tasks st !! j) as [t|] eqn:Ht; simpl; [|done]. intros [= <-].
      destruct (decide (k = j)) as [->|Hne].
      - rewrite lookup_insert_eq. unfold goals_ok. simpl. split.
        + intros Hempty. apply (f_equal (fun m => m !! p)) in Hempty.
          by rewrite lookup_insert_eq, lookup_empty in Hempty.
        + intros q g. destruct (decide (p = q)) as [->|Hq].
          * rewrite lookup_insert_eq. by intros [= <-].
          * rewrite lookup_insert_ne by done. apply Hg.
      - rewrite lookup_insert_ne, loadGoals_lookup, Ht by done. simpl.
        rewrite with_goals_same. exact (Hok _ _ Ht). }
    unfold JS.get. rewrite loadGoals_lookup.
    destruct (tasks st !! k) as [t|] eqn:Ht; simpl.
    + destruct (Task.goals t) as [taskGoals|] eqn:Hg; simpl.
      * apply Hset. intros q g Hq. pose proof (Hok _ _ Ht) as Hgo.
        unfold goals_ok in Hgo. rewrite Hg in Hgo. by apply Hgo.
      * destruct (JS.inherited k); simpl.
        -- by rewrite saveGoals_loadGoals.
        -- apply (Hset ∅). intros q g. by rewrite lookup_empty.
    + destruct (JS.inherited k); simpl.
      * by rewrite saveGoals_loadGoals.
      * apply (Hset ∅). intros q g. by rewrite lookup_empty.
  - unfold removeGoal.
    assert (map_Forall (fun _ t => goals_ok t)
              (saveGoals (delete k (loadGoals (tasks st))) (tasks st))) as Hall.
    { intros j t'. rewrite saveGoals_lookup.
      destruct (tasks st !! j) as [t|] eqn:Ht; simpl; [|done]. intros [= <-].
      destruct (decide (k = j)) as [->|Hne].
      - by rewrite lookup_delete_eq.
      - rewrite lookup_delete_ne, loadGoals_lookup, Ht by done. simpl.
        rewrite with_goals_same. exact (Hok _ _ Ht). }
    destruct (JS.truthy_str p) as [q|]; unfold JS.get at 1;
      rewrite loadGoals_lookup;
      destruct (tasks st !! k) as [t|] eqn:Ht; simpl;
      [destruct (Task.goals t) as [taskGoals|] eqn:Hg; simpl| |
       destruct (Task.goals t) as [taskGoals|] eqn:Hg; simpl|];
      try (by destruct (JS.inherited k)).
    destruct (match JS.get taskGoals q with JS.Own g => g =? 0
              | JS.Inherited => false | JS.Undefined => true end); simpl; [done|].
    case_bool_decide as Hempty; [done|].
    intros j t'. rewrite saveGoals_lookup.
    destruct (tasks st !! j) as [tj|] eqn:Htj; simpl; [|done]. intros [= <-].
    destruct (decide (k = j)) as [->|Hne].
    + rewrite lookup_insert_eq. unfold goals_ok. simpl. split; [done|].
      intros r g [_ Hr]%lookup_delete_Some. pose proof (Hok _ _ Ht) as Hgo.
      unfold goals_ok in Hgo. rewrite Hg in Hgo. by apply Hgo.
    + rewrite lookup_insert_ne, loadGoals_lookup, Htj by done. simpl.
      rewrite with_goals_same. exact (Hok _ _ Htj).
Qed.

Lemma run_goals_ok ops : forall st,
  map_Forall (fun _ t => goals_ok t) (tasks st) ->
  map_Forall (fun _ t => goals_ok t) (tasks (run ops st)).
Proof.
  induction ops as [|op ops IH]; intros st Hok; simpl; [done|].
  apply IH. by apply exec_goals_ok.
Qed.

(** X10.  After every sequence of operations every stored goal is for one
    of the four periods and has a positive duration, and no task carries an
    empty goals object. *)
Theorem stored_goals_valid ops :
  map_Forall (fun _ t => goals_ok t) (tasks (run ops initial_store)).
Proof. apply run_goals_ok, map_Forall_empty. Qed.


Lemma Period_name_valid p : isValidGoalPeriod (Period_name p) = true.
Proof. by destruct p. Qed.

Lemma Period_name_plain p :
  Period_name p <> "" /\ JS.inherited (Period_name p) = false.
Proof. by destruct p. Qed.

Lemma getTaskGoals_lookup ts taskId :
  getTaskGoals taskId ts = default ∅ (ts !! taskId ≫= Task.goals).
Proof.
  unfold getTaskGoals, JS.get. rewrite loadGoals_lookup.
  destruct (ts !! taskId ≫= Task.goals); [done|]. by destruct (JS.inherited taskId).
Qed.

Section WithCalendar.
Context `{Calendar}.

(** X8.  Deleting a task takes its goals and its sessions with it: after a
    successful [deleteTask] of a stored task the task is gone, it has no
    goals, no goal progress and no time in any period, and every other task
    is as it was, goals included. *)
Theorem deleteTask_cascades ts taskId task :
  ts !! taskId = Some task ->
  exists ts',
    deleteTask taskId ts = (Success tt, ts')
    /\ ts' !! taskId = None
    /\ getTaskGoals taskId ts' = ∅
    /\ (forall period targetDate,
          getGoalProgress taskId period targetDate ts' = None
          /\ getActualTimeForPeriod taskId period targetDate ts' = 0)
    /\ (forall other, other <> taskId ->
          ts' !! other = ts !! other
          /\ getTaskGoals other ts' = getTaskGoals other ts).
Proof.
  intros Ht. exists (delete taskId ts).
  assert (delete taskId ts !! taskId = None) as Hgone by apply lookup_delete_eq.
  assert (getTaskGoals taskId (delete taskId ts) = ∅) as Hgoals
    by by rewrite getTaskGoals_lookup, Hgone.
  repeat split; try done.
  - unfold deleteTask, JS.get. by rewrite Ht.
  - unfold getGoalProgress. by rewrite Hgoals, lookup_empty.
  - unfold getActualTimeForPeriod, getTask, JS.get. rewrite Hgone.
    by destruct (JS.inherited taskId).
  - by rewrite lookup_delete_ne.
  - by rewrite !getTaskGoals_lookup, lookup_delete_ne.
Qed.

(** X11.  A goal that was set can be read back: after [setGoal] on a stored
    task with a positive duration, [getTaskGoals] gives that duration for
    the period and what it gave before for every other period, and
    [getGoalProgress] for the period is not the no-goal result. *)
Theorem setGoal_then_get ts taskId task period duration targetDate :
  ts !! taskId = Some task ->
  JS.inherited taskId = false ->
  0 < duration ->
  exists isUpdate ts',
    setGoal taskId (Period_name period) duration ts = (Success isUpdate, ts')
    /\ getTaskGoals taskId ts' !! Period_name period = Some duration
    /\ (forall other, other <> Period_name period ->
          getTaskGoals taskId ts' !! other = getTaskGoals taskId ts !! other)
    /\ (exists progress,
          getGoalProgress taskId period targetDate ts' = Some progress
          /\ goalTime progress = duration).
Proof.
  intros Ht Hi Hd.
  rewrite (setGoal_existing taskId (Period_name period) duration ts task)
    by auto using Period_name_valid.
  eexists _, _. split; [reflexivity|].
  rewrite !getTaskGoals_lookup, lookup_insert_eq, Ht. simpl.
  split; [apply lookup_insert_eq|]. split.
  - intros other Hne. by rewrite lookup_insert_ne.
  - unfold getGoalProgress.
    rewrite getTaskGoals_lookup, lookup_insert_eq. simpl.
    rewrite lookup_insert_eq. rewrite (proj2 (Z.eqb_neq _ _)) by lia.
    eexists. split; reflexivity.
Qed.


(** X23.  Whatever the sessions and the goal, the three numbers returned by
    [getGoalStreak] satisfy
    [0 <= currentStreak <= 1], [currentStreak <= longestStreak],
    [longestStreak <= totalAchieved] and [totalAchieved <= 30]. *)
Theorem streak_bounds ts taskId period today :
  0 <= currentStreak (getGoalStreak taskId period today ts) <= 1
  /\ currentStreak (getGoalStreak taskId period today ts)
     <= longestStreak (getGoalStreak taskId period today ts)
  /\ longestStreak (getGoalStreak taskId period today ts)
     <= totalAchieved (getGoalStreak taskId period today ts)
  /\ totalAchieved (getGoalStreak taskId period today ts) <= 30.
Proof.
  assert (forall achieved indices v,
             v_current v <= v_longest v ->
             0 <= v_temp v <= v_longest v ->
             v_longest v <= v_total v ->
             let v' := streak_loop achieved indices v in
             v_current v' <= v_longest v'
             /\ 0 <= v_temp v' <= v_longest v'
             /\ v_longest v' <= v_total v'
             /\ v_total v' <= v_total v + Z.of_nat (length indices)) as Hloop.
  { intros achieved indices. unfold streak_loop.
    induction indices as [|i indices IH]; intros v Hcl Ht Hl; simpl; [lia|].
    destruct (IH (streak_iter (achieved i) i v)) as (? & ? & ? & Htot).
    - unfold streak_iter. destruct (achieved i), (i =? 0); simpl; lia.
    - unfold streak_iter. destruct (achieved i); simpl; lia.
    - unfold streak_iter. destruct (achieved i); simpl; lia.
    - repeat split; try lia.
      etransitivity; [exact Htot|].
      unfold streak_iter. destruct (achieved i); simpl; lia. }
  unfold getGoalStreak.
  destruct (getTaskGoals taskId ts !! Period_name period) as [g|]; [|simpl; lia].
  destruct (g =? 0); [simpl; lia|]. cbn [currentStreak longestStreak totalAchieved].
  match goal with
  | |- context [streak_loop ?a ?l ?v] =>
      destruct (Hloop a l v) as (? & ? & ? & Htot); [simpl; lia ..|];
      pose proof (streak_loop_current a 30 ltac:(lia)) as Hcur;
      change (Z.of_nat 30) with 30 in Hcur;
      rewrite length_seqZ in Htot; change (Z.of_nat (Z.to_nat 30)) with 30 in Htot;
      change (v_total v) with 0 in Htot;
      generalize dependent (streak_loop a l v)
  end.
  intros v' ??? Htot Hcur. destruct (_ <=? _) in Hcur; lia.
Qed.

End WithCalendar.

(** X12.  Setting a goal for a period that had none and removing it again
    restores the store: on a stored task whose goals are well formed,
    [removeGoal] of the period succeeds on the result of [setGoal] and
    gives back the store as it was. *)
Theorem setGoal_then_removeGoal ts taskId task period duration :
  ts !! taskId = Some task ->
  JS.inherited taskId = false ->
  goals_ok task ->
  getTaskGoals taskId ts !! Period_name period = None ->
  0 < duration ->
  removeGoal taskId (Some (Period_name period))
             (setGoal taskId (Period_name period) duration ts).2
  = (Some (Success tt), ts).
Proof.
  intros Ht Hi Hok Hnone Hd.
  destruct (Period_name_plain period) as [Hne Hpi].
  rewrite (setGoal_existing taskId (Period_name period) duration ts task)
    by auto using Period_name_valid.
  simpl. rewrite getTaskGoals_lookup, Ht in Hnone. simpl in Hnone.
  set (taskGoals := default ∅ (Task.goals task)) in *.
  unfold removeGoal. rewrite truthy_str_intro by done.
  unfold JS.get at 1. rewrite loadGoals_lookup, lookup_insert_eq. simpl.
  unfold JS.get. rewrite lookup_insert_eq.
  rewrite (proj2 (Z.eqb_neq _ _)) by lia.
  rewrite delete_insert_id by done. f_equal.
  apply map_eq. intros j. rewrite saveGoals_lookup.
  destruct (decide (taskId = j)) as [<-|Hj].
  - rewrite lookup_insert_eq, Ht. simpl. f_equal.
    unfold with_goals. simpl. destruct task as [i n c tt' ss g]. simpl in *.
    f_equal. unfold goals_ok in Hok. simpl in Hok. subst taskGoals.
    case_bool_decide as Hempty.
    + rewrite lookup_delete_eq. destruct g as [g|]; [|done]. simpl in Hempty.
      by destruct Hok.
    + rewrite lookup_insert_eq. by destruct g.
  - rewrite lookup_insert_ne by done.
    destruct (ts !! j) as [tj|] eqn:Htj; simpl; [|done]. f_equal.
    case_bool_decide.
    + rewrite lookup_delete_ne, loadGoals_lookup, lookup_insert_ne, Htj by done.
      simpl. apply with_goals_same.
    + rewrite lookup_insert_ne, loadGoals_lookup, lookup_insert_ne, Htj by done.
      simpl. apply with_goals_same.
Qed.


(** X13.  Removing the goal of one period removes exactly that goal: the
    task keeps its other goals, loses the goals property altogether when
    this was the last one, keeps everything else, and no other task
    changes. *)
Theorem removeGoal_period ts taskId task taskGoals period g :
  ts !! taskId = Some task ->
  Task.goals task = Some taskGoals ->
  taskGoals !! period = Some g ->
  g <> 0 ->
  period <> "" ->
  exists ts',
    removeGoal taskId (Some period) ts = (Some (Success tt), ts')
    /\ getTaskGoals taskId ts' = delete period taskGoals
    /\ ts' !! taskId
       = Some (with_goals
                 (if bool_decide (delete period taskGoals = ∅) then None
                  else Some (delete period taskGoals)) task)
    /\ (forall other, other <> taskId -> ts' !! other = ts !! other).
Proof.
  intros Ht Hg Hp Hne Hpe. unfold removeGoal.
  rewrite truthy_str_intro by done.
  unfold JS.get at 1. rewrite loadGoals_lookup, Ht. simpl. rewrite Hg.
  unfold JS.get. rewrite Hp. rewrite (proj2 (Z.eqb_neq _ _) Hne).
  eexists. split; [reflexivity|].
  assert (forall goals' : gmap string (gmap string Z),
             (forall other, other <> taskId ->
                            goals' !! other = loadGoals ts !! other) ->
             forall other, other <> taskId ->
                           saveGoals goals' ts !! other = ts !! other) as Hother.
  { intros goals' Hsame other Ho. rewrite saveGoals_lookup, Hsame by done.
    rewrite loadGoals_lookup.
    destruct (ts !! other) as [t|]; simpl; [|done]. by rewrite with_goals_same. }
  case_bool_decide as Hempty.
  - rewrite getTaskGoals_lookup, !saveGoals_lookup, Ht, lookup_delete_eq. simpl.
    repeat split; [done|].
    apply Hother. intros other Ho. by rewrite lookup_delete_ne.
  - rewrite getTaskGoals_lookup, !saveGoals_lookup, Ht, lookup_insert_eq. simpl.
    repeat split.
    apply Hother. intros other Ho. by rewrite lookup_insert_ne.
Qed.

(** X14.  [removeGoal] without a period removes all the goals of a task
    that has some: afterwards [getTaskGoals] is empty for it, the task is
    otherwise as it was, and no other task changes. *)
Theorem removeGoal_all ts taskId task taskGoals :
  ts !! taskId = Some task ->
  Task.goals task = Some taskGoals ->
  exists ts',
    removeGoal taskId None ts = (Some (Success tt), ts')
    /\ getTaskGoals taskId ts' = ∅
    /\ ts' !! taskId = Some (with_goals None task)
    /\ (forall other, other <> taskId -> ts' !! other = ts !! other).
Proof.
  intros Ht Hg. unfold removeGoal. simpl.
  unfold JS.get. rewrite loadGoals_lookup, Ht. simpl. rewrite Hg.
  eexists. split; [reflexivity|].
  rewrite getTaskGoals_lookup, !saveGoals_lookup, Ht, lookup_delete_eq. simpl.
  repeat split. intros other Ho.
  rewrite saveGoals_lookup, lookup_delete_ne, loadGoals_lookup by done.
  destruct (ts !! other) as [t|]; simpl; [|done]. by rewrite with_goals_same.
Qed.

End StoreAndGoals.

(* WITNESSES *)
Section Wit.
Import TaskManager TimeTracker Goals Utc.
Lemma deleteTask_cascades_witness :
  exists ts',
    deleteTask "coding" (tasks (run Sample.one_hour_today initial_store))
    = (Success tt, ts')
    /\ ts' !! "coding" = None
    /\ getTaskGoals "coding" ts' = ∅
    /\ (forall period targetDate,
          getGoalProgress "coding" period targetDate ts' = None
          /\ getActualTimeForPeriod "coding" period targetDate ts' = 0)
    /\ (forall other, other <> "coding" ->
          ts' !! other = tasks (run Sample.one_hour_today initial_store) !! other
          /\ getTaskGoals other ts'
             = getTaskGoals other (tasks (run Sample.one_hour_today initial_store))).
Proof.
  apply (deleteTask_cascades
           (tasks (run Sample.one_hour_today initial_store)) "coding"
           (Task.mk "coding" "coding" 0 Sample.hour
              [Session.mk "coding" (Sample.now - Sample.hour) Sample.now Sample.hour]
              (Some {["daily" := 4 * Sample.hour]}))).
  vm_compute. reflexivity.
Defined.


Lemma setGoal_then_get_witness :
  exists isUpdate ts',
    setGoal "coding" (Period_name weekly) (10 * Sample.hour)
            (tasks (run Sample.one_hour_today initial_store))
    = (Success isUpdate, ts')
    /\ getTaskGoals "coding" ts' !! Period_name weekly = Some (10 * Sample.hour)
    /\ (forall other, other <> Period_name weekly ->
          getTaskGoals "coding" ts' !! other
          = getTaskGoals "coding" (tasks (run Sample.one_hour_today initial_store))
              !! other)
    /\ (exists progress,
          getGoalProgress "coding" weekly Sample.now ts' = Some progress
          /\ goalTime progress = 10 * Sample.hour).
Proof.
  apply (setGoal_then_get
           (tasks (run Sample.one_hour_today initial_store)) "coding"
           (Task.mk "coding" "coding" 0 Sample.hour
              [Session.mk "coding" (Sample.now - Sample.hour) Sample.now Sample.hour]
              (Some {["daily" := 4 * Sample.hour]}))
           weekly (10 * Sample.hour) Sample.now);
    [vm_compute; reflexivity | reflexivity | reflexivity].
Defined.

Lemma setGoal_then_removeGoal_witness :
  removeGoal "coding" (Some (Period_name weekly))
    (setGoal "coding" (Period_name weekly) (10 * Sample.hour)
       (tasks (run Sample.one_hour_today initial_store))).2
  = (Some (Success tt), tasks (run Sample.one_hour_today initial_store)).
Proof.
  apply (setGoal_then_removeGoal
           (tasks (run Sample.one_hour_today initial_store)) "coding"
           (Task.mk "coding" "coding" 0 Sample.hour
              [Session.mk "coding" (Sample.now - Sample.hour) Sample.now Sample.hour]
              (Some {["daily" := 4 * Sample.hour]}))
           weekly (10 * Sample.hour));
    [vm_compute; reflexivity | reflexivity | | vm_compute; reflexivity | reflexivity].
  split; [apply insert_non_empty|].
  apply map_Forall_singleton. split; reflexivity.
Defined.

Lemma removeGoal_period_witness :
  exists ts',
    removeGoal "coding" (Some "daily") (tasks (run Sample.one_hour_today initial_store))
    = (Some (Success tt), ts')
    /\ getTaskGoals "coding" ts' = delete "daily" {["daily" := 4 * Sample.hour]}
    /\ ts' !! "coding"
       = Some (with_goals
                 (if bool_decide
                       (delete "daily" ({["daily" := 4 * Sample.hour]} : gmap string Z) = ∅)
                  then None
                  else Some (delete "daily" {["daily" := 4 * Sample.hour]}))
                 (Task.mk "coding" "coding" 0 Sample.hour
                    [Session.mk "coding" (Sample.now - Sample.hour) Sample.now Sample.hour]
                    (Some {["daily" := 4 * Sample.hour]})))
    /\ (forall other, other <> "coding" ->
          ts' !! other = tasks (run Sample.one_hour_today initial_store) !! other).
Proof.
  apply (removeGoal_period
           (tasks (run Sample.one_hour_today initial_store)) "coding"
           (Task.mk "coding" "coding" 0 Sample.hour
              [Session.mk "coding" (Sample.now - Sample.hour) Sample.now Sample.hour]
              (Some {["daily" := 4 * Sample.hour]}))
           {["daily" := 4 * Sample.hour]} "daily" (4 * Sample.hour));
    [vm_compute; reflexivity | reflexivity | reflexivity | discriminate | discriminate].
Defined.

Lemma removeGoal_all_witness :
  exists ts',
    removeGoal "coding" None (tasks (run Sample.one_hour_today initial_store))
    = (Some (Success tt), ts')
    /\ getTaskGoals "coding" ts' = ∅
    /\ ts' !! "coding"
       = Some (with_goals None
                 (Task.mk "coding" "coding" 0 Sample.hour
                    [Session.mk "coding" (Sample.now - Sample.hour) Sample.now Sample.hour]
                    (Some {["daily" := 4 * Sample.hour]})))
    /\ (forall other, other <> "coding" ->
          ts' !! other = tasks (run Sample.one_hour_today initial_store) !! other).
Proof.
  apply (removeGoal_all
           (tasks (run Sample.one_hour_today initial_store)) "coding"
           (Task.mk "coding" "coding" 0 Sample.hour
              [Session.mk "coding" (Sample.now - Sample.hour) Sample.now Sample.hour]
              (Some {["daily" := 4 * Sample.hour]}))
           {["daily" := 4 * Sample.hour]});
    [vm_compute; reflexivity | reflexivity].
Defined.

End Wit.

(** ** Grouping and ranking *)

Section Grouping.
Import Analytics.

Lemma sessions_of_task_snoc k l s :
  sessions_of_task k (l ++ [s])
  = (sessions_of_task k l
     ++ (if bool_decide (Session.task s = k) then [s] else []))%list.
Proof.
  unfold sessions_of_task. rewrite List.filter_app. simpl.
  by destruct (bool_decide (Session.task s = k)).
Qed.

(** The groups built so far describe the sessions seen so far. *)
Lemma group_from_spec l : forall l0 grouped grouped',
  (forall k,
      match grouped !! k with
      | Some g =>
          g = Group.mk k (sum_durations (sessions_of_task k l0)) (sessions_of_task k l0)
          /\ sessions_of_task k l0 <> [] /\ JS.inherited k = false
      | None => sessions_of_task k l0 = []
      end) ->
  group_from grouped l = Some grouped' ->
  (forall k,
      match grouped' !! k with
      | Some g =>
          g = Group.mk k (sum_durations (sessions_of_task k (l0 ++ l)))
                       (sessions_of_task k (l0 ++ l))
          /\ sessions_of_task k (l0 ++ l) <> [] /\ JS.inherited k = false
      | None => sessions_of_task k (l0 ++ l) = []
      end)
  /\ Forall proper_name l.
Proof.
  induction l as [|s l IH]; intros l0 grouped grouped' Hspec; simpl.
  - intros [= <-]. rewrite app_nil_r. done.
  - unfold group_session, JS.get.
    pose proof (Hspec (Session.task s)) as Hs.
    destruct (grouped !! Session.task s) as [g|] eqn:Hg.
    + destruct Hs as (-> & Hne & Hi). simpl. intros Hrest.
      rewrite (cons_middle s), app_assoc.
      eapply (IH (l0 ++ [s])%list) in Hrest as [Hfinal Hall];
        [split; [done | by constructor]|].
      intros k. destruct (decide (Session.task s = k)) as [<-|Hk].
      * rewrite lookup_insert_eq, sessions_of_task_snoc.
        rewrite bool_decide_eq_true_2 by done.
        rewrite sum_durations_app. simpl. repeat split; [|by destruct (sessions_of_task _ l0)|done].
        f_equal. lia.
      * rewrite lookup_insert_ne, sessions_of_task_snoc by done.
        rewrite bool_decide_eq_false_2, app_nil_r by done. apply Hspec.
    + destruct (JS.inherited (Session.task s)) eqn:Hi; [done|]. intros Hrest.
      rewrite (cons_middle s), app_assoc.
      eapply (IH (l0 ++ [s])%list) in Hrest as [Hfinal Hall];
        [split; [done | by constructor]|].
      intros k. destruct (decide (Session.task s = k)) as [<-|Hk].
      * rewrite lookup_insert_eq, sessions_of_task_snoc, Hs.
        rewrite bool_decide_eq_true_2 by done. simpl.
        split; [f_equal; lia | by split].
      * rewrite lookup_insert_ne, sessions_of_task_snoc by done.
        rewrite bool_decide_eq_false_2, app_nil_r by done. apply Hspec.
Qed.

Lemma group_from_improper l : forall grouped,
  group_from grouped l = None -> ~ Forall proper_name l.
Proof.
  induction l as [|s l IH]; intros grouped; simpl; [done|].
  unfold group_session, JS.get.
  destruct (grouped !! Session.task s) as [g|].
  - intros Hr Hall. inversion Hall; subst. by eapply IH.
  - destruct (JS.inherited (Session.task s)) eqn:Hi.
    + intros _ Hall. inversion Hall as [|?? Hp]; subst. red in Hp. congruence.
    + intros Hr Hall. inversion Hall; subst. by eapply IH.
Qed.

Lemma groupSessionsByTask_spec l grouped :
  groupSessionsByTask l = Some grouped ->
  Forall proper_name l
  /\ forall taskId,
      match grouped !! taskId with
      | Some g =>
          g = Group.mk taskId (sum_durations (sessions_of_task taskId l))
                       (sessions_of_task taskId l)
          /\ sessions_of_task taskId l <> []
      | None => sessions_of_task taskId l = []
      end.
Proof.
  unfold groupSessionsByTask. intros Hg.
  destruct (group_from_spec l [] ∅ grouped) as [Hspec Hall]; [|done|].
  - intros k. by rewrite lookup_empty.
  - split; [done|]. intros k. specialize (Hspec k). simpl in Hspec.
    destruct (grouped !! k); [|done]. by destruct Hspec as (? & ? & _).
Qed.

(** X15.  [groupSessionsByTask] files every session under its task: when
    it returns, the group of a task is there exactly when the task has a
    session in the list, carries the task's name, holds the task's sessions
    in their order and has their total duration.  It fails exactly when
    some session is named after a property of [Object.prototype]. *)
Theorem groupSessionsByTask_groups l :
  match groupSessionsByTask l with
  | Some grouped =>
      Forall proper_name l
      /\ forall taskId,
          match grouped !! taskId with
          | Some g =>
              g = Group.mk taskId (sum_durations (sessions_of_task taskId l))
                           (sessions_of_task taskId l)
              /\ sessions_of_task taskId l <> []
          | None => sessions_of_task taskId l = []
          end
  | None => ~ Forall proper_name l
  end.
Proof.
  destruct (groupSessionsByTask l) as [grouped|] eqn:Hg.
  - by apply groupSessionsByTask_spec.
  - by eapply group_from_improper.
Qed.

Lemma sort_desc_sort_by l :
  sort_desc l = sort_by (fun a b => Group.totalTime b <=? Group.totalTime a) l.
Proof.
  unfold sort_desc, sort_by. induction l as [|g l IH]; simpl; [done|].
  rewrite IH. generalize (foldr (insert_by (fun a b => Group.totalTime b <=? Group.totalTime a)) [] l).
  intros sorted. induction sorted as [|h sorted IHs]; simpl; [done|].
  by rewrite IHs.
Qed.

Lemma sort_desc_sorted l :
  Sorted.StronglySorted (fun a b => Group.totalTime b <= Group.totalTime a)
                        (sort_desc l).
Proof.
  rewrite sort_desc_sort_by. apply sort_by_sorted.
  - intros a b Hab. by apply Z.leb_le.
  - intros a b Hab. apply Z.leb_gt in Hab. lia.
  - intros a b c ??. lia.
Qed.

Lemma report_unfold ts lo hi ivs r :
  report ts lo hi ivs = Some r ->
  exists grouped,
    groupSessionsByTask (filterSessionsByDateRange (allSessions ts) lo hi) = Some grouped
    /\ mapM (fun iv => bucket (filterSessionsByDateRange (allSessions ts) lo hi) iv.1 iv.2)
            ivs = Some (Report.breakdown r)
    /\ Report.tasks r = sort_desc (Object_values grouped)
    /\ Report.totalTime r = total_of_groups grouped
    /\ Report.startDate r = lo /\ Report.endDate r = hi.
Proof.
  unfold report.
  destruct (groupSessionsByTask _) as [grouped|]; simpl; [|done].
  destruct (mapM _ ivs) as [bs|]; simpl; [|done].
  intros [= <-]. by exists grouped.
Qed.

Lemma report_tasks_spec ts lo hi ivs r :
  report ts lo hi ivs = Some r ->
  Sorted.StronglySorted (fun a b => Group.totalTime b <= Group.totalTime a)
                        (Report.tasks r)
  /\ NoDup (Group.name <$> Report.tasks r)
  /\ (forall g, g ∈ Report.tasks r ->
        Group.sessions g
        = sessions_of_task (Group.name g)
            (filterSessionsByDateRange (allSessions ts) lo hi)
        /\ Group.sessions g <> []
        /\ Group.totalTime g = sum_durations (Group.sessions g))
  /\ (forall s, s ∈ filterSessionsByDateRange (allSessions ts) lo hi ->
        exists g, g ∈ Report.tasks r /\ Group.name g = Session.task s).
Proof.
  intros Hr.
  destruct (report_unfold _ _ _ _ _ Hr) as (grouped & Hg & _ & Htasks & _).
  destruct (groupSessionsByTask_spec _ _ Hg) as [_ Hspec].
  set (fs := filterSessionsByDateRange (allSessions ts) lo hi) in *.
  assert (forall g, g ∈ Report.tasks r <-> exists k, grouped !! k = Some g) as Hin.
  { intros g. rewrite Htasks, sort_desc_perm. unfold Object_values.
    rewrite list_elem_of_fmap. split.
    - intros [[k g'] [-> Hkg%elem_of_map_to_list]]. eauto.
    - intros [k Hk]. exists (k, g). by rewrite elem_of_map_to_list. }
  split; [rewrite Htasks; apply sort_desc_sorted|]. split; [|split].
  - rewrite Htasks, sort_desc_perm. unfold Object_values.
    replace (Group.name <$> (map_to_list grouped).*2) with (map_to_list grouped).*1.
    + apply NoDup_fst_map_to_list.
    + rewrite <-list_fmap_compose. apply Forall_fmap_ext_1, Forall_forall.
      intros [k g] Hkg%elem_of_map_to_list. simpl.
      specialize (Hspec k). rewrite Hkg in Hspec. by destruct Hspec as [-> _].
  - intros g [k Hk]%Hin. specialize (Hspec k). rewrite Hk in Hspec.
    destruct Hspec as [-> Hne]. done.
  - intros s Hs. specialize (Hspec (Session.task s)).
    destruct (grouped !! Session.task s) as [g|] eqn:Hg'.
    + exists g. split; [apply Hin; eauto|]. by destruct Hspec as [-> _].
    + exfalso. unfold sessions_of_task in Hspec.
      assert (s ∈ List.filter (fun s0 => bool_decide (Session.task s0 = Session.task s)) fs)
        as Hmem.
      { apply list_elem_of_In, List.filter_In. split; [by apply list_elem_of_In|].
        by apply bool_decide_eq_true_2. }
      rewrite Hspec in Hmem. by apply not_elem_of_nil in Hmem.
Qed.

(** X16.  The ranking of a report (daily, weekly, monthly or yearly) over
    the store any sequence of operations leaves: the report is produced,
    its groups are in descending order of their totals, no task appears
    twice, every session that starts in the interval has its task in the
    ranking, and each group is the task's sessions that start in the
    interval, in their order, with their total duration. *)
Theorem report_ranking ops lo hi ivs :
  let ts := tasks (run ops initial_store) in
  exists r,
    report ts lo hi ivs = Some r
    /\ Sorted.StronglySorted (fun a b => Group.totalTime b <= Group.totalTime a)
                             (Report.tasks r)
    /\ NoDup (Group.name <$> Report.tasks r)
    /\ (forall g, g ∈ Report.tasks r ->
          Group.sessions g
          = sessions_of_task (Group.name g)
              (filterSessionsByDateRange (allSessions ts) lo hi)
          /\ Group.sessions g <> []
          /\ Group.totalTime g = sum_durations (Group.sessions g))
    /\ (forall s, s ∈ filterSessionsByDateRange (allSessions ts) lo hi ->
          exists g, g ∈ Report.tasks r /\ Group.name g = Session.task s).
Proof.
  intros ts.
  destruct (report_groups ts lo hi ivs (reachable_ok ops)) as (r & Hr & _).
  exists r. split; [done|]. exact (report_tasks_spec _ _ _ _ _ Hr).
Qed.

End Grouping.

(** ** Reports, goals and the summary on the stores the operations produce *)

Section Reports.
Import TaskManager Goals Analytics.

Lemma filter_inner l a b c d :
  a <= c -> d <= b ->
  filterSessionsByDateRange (filterSessionsByDateRange l a b) c d
  = filterSessionsByDateRange l c d.
Proof.
  intros ??. unfold filterSessionsByDateRange, isWithinInterval.
  induction l as [|s l IH]; simpl; [done|].
  destruct (c <=? Session.startTime s) eqn:E3, (Session.startTime s <=? d) eqn:E4;
    destruct (a <=? Session.startTime s) eqn:E1, (Session.startTime s <=? b) eqn:E2;
    simpl; rewrite ?E3, ?E4; simpl; rewrite ?IH; try done; lia.
Qed.

Lemma filter_outer l a b c d :
  c <= a -> b <= d ->
  filterSessionsByDateRange (filterSessionsByDateRange l a b) c d
  = filterSessionsByDateRange l a b.
Proof.
  intros ??. unfold filterSessionsByDateRange, isWithinInterval.
  induction l as [|s l IH]; simpl; [done|].
  destruct (a <=? Session.startTime s) eqn:E1, (Session.startTime s <=? b) eqn:E2;
    simpl; [|done..].
  destruct (c <=? Session.startTime s) eqn:E3, (Session.startTime s <=? d) eqn:E4;
    simpl; rewrite ?IH; try done; lia.
Qed.

Lemma mapM_elem {A B} (f : A -> option B) l k x :
  mapM f l = Some k -> x ∈ l -> exists y, y ∈ k /\ f x = Some y.
Proof.
  intros Hm%mapM_Some_1. induction Hm as [|a b l k Hab Hm IH]; intros Hx.
  - by apply not_elem_of_nil in Hx.
  - apply elem_of_cons in Hx as [->|Hx].
    + exists b. split; [left|done].
    + destruct (IH Hx) as (y & Hy & Hf). exists y. split; [by right|done].
Qed.

Section WithCalendar.
Context `{Calendar}.

(** X17.  The weekly breakdown of the monthly report adds up to the
    month's total whenever the weeks of the month, each taken to its end,
    tile a span that covers the month: a week that straddles the month's
    boundary counts only its sessions inside the month. *)
Theorem monthly_weeks_additive ops targetDate :
  month_covered targetDate = true ->
  exists r,
    getMonthlyAnalytics targetDate (tasks (run ops initial_store)) = Some r
    /\ length (Report.breakdown r)
       = length (eachWeekOfInterval (startOfMonth targetDate) (endOfMonth targetDate))
    /\ sum_buckets (Report.breakdown r) = Report.totalTime r
    /\ sum_groups (Report.tasks r) = Report.totalTime r.
Proof.
  unfold month_covered, getMonthlyAnalytics.
  set (ms := startOfMonth targetDate). set (me := endOfMonth targetDate).
  set (ts := tasks (run ops initial_store)).
  assert (store_ok ts) as Hok by apply reachable_ok.
  assert (length (weeks_of_month ms me) = length (eachWeekOfInterval ms me)) as Hlen
    by apply length_fmap.
  revert Hlen. generalize (weeks_of_month ms me). intros weeks Hlen Hcov.
  destruct (report_groups ts ms me weeks Hok) as (r & Hr & Hsum & Htot & Hmap).
  exists r. split; [done|].
  destruct weeks as [|first rest] eqn:Hw; [done|]. rewrite <-Hw in *.
  apply andb_prop in Hcov as [Hcov Ht]. apply andb_prop in Hcov as [Hlo Hhi].
  apply Z.leb_le in Hlo, Hhi.
  destruct (buckets_tiled (filterSessionsByDateRange (allSessions ts) ms me)
              _ _ _ (filter_proper _ _ _ (allSessions_proper _ Hok)) Ht)
    as (bs & Hbs & Hbl & Hbsum).
  rewrite Hmap in Hbs. injection Hbs as <-.
  split; [lia|]. split; [|done].
  rewrite Hbsum, filter_outer by done. done.
Qed.

(** X18.  A day of the weekly report's breakdown is that day's daily
    report: for a day of the week whose interval lies within the week, the
    entry of [dailyBreakdown] has the total of [getDailyAnalytics] for that
    day, and its groups, ranked, are the daily report's ranking. *)
Theorem weekly_day_is_daily_report ops targetDate day :
  day ∈ eachDayOfInterval (startOfWeek targetDate) (endOfWeek targetDate) ->
  startOfWeek targetDate <= startOfDay day ->
  endOfDay day <= endOfWeek targetDate ->
  exists rw rd b,
    getWeeklyAnalytics targetDate (tasks (run ops initial_store)) = Some rw
    /\ getDailyAnalytics day (tasks (run ops initial_store)) = Some rd
    /\ b ∈ Report.breakdown rw
    /\ Bucket.first b = startOfDay day
    /\ Bucket.last b = endOfDay day
    /\ Bucket.totalTime b = Report.totalTime rd
    /\ sort_desc (Object_values (Bucket.tasks b)) = Report.tasks rd.
Proof.
  intros Hday Hlo Hhi. unfold getWeeklyAnalytics, getDailyAnalytics.
  set (ws := startOfWeek targetDate) in *. set (we := endOfWeek targetDate) in *.
  set (ts := tasks (run ops initial_store)).
  assert (store_ok ts) as Hok by apply reachable_ok.
  destruct (report_groups ts ws we (days_of_week ws we) Hok) as (rw & Hrw & _ & _ & Hmap).
  destruct (report_groups ts (startOfDay day) (endOfDay day) [] Hok)
    as (rd & Hrd & _ & Htot & _).
  assert ((startOfDay day, endOfDay day) ∈ days_of_week ws we) as Hiv.
  { unfold days_of_week. apply list_elem_of_fmap. by exists day. }
  destruct (mapM_elem _ _ _ _ Hmap Hiv) as (b & Hb & Hbucket).
  exists rw, rd, b. split; [done|]. split; [done|]. split; [done|].
  unfold bucket in Hbucket. simpl in Hbucket.
  rewrite filter_inner in Hbucket by done.
  destruct (report_unfold _ _ _ _ _ Hrd) as (grouped & Hg & _ & Htasks & _).
  rewrite Hg in Hbucket. simpl in Hbucket. injection Hbucket as <-. simpl.
  rewrite fold_left_durations, Htot, Htasks. split; [done|]. split; [done|].
  split; [lia|done].
Qed.


Lemma sessions_of_task_filter k l a b :
  sessions_of_task k (filterSessionsByDateRange l a b)
  = filterSessionsByDateRange (sessions_of_task k l) a b.
Proof.
  unfold sessions_of_task, filterSessionsByDateRange.
  induction l as [|s l IH]; simpl; [done|].
  destruct (isWithinInterval _ a b) eqn:E1, (bool_decide (Session.task s = k)) eqn:E2;
    simpl; rewrite ?E1, ?E2, ?IH; done.
Qed.

Lemma sessions_of_task_app k l1 l2 :
  sessions_of_task k (l1 ++ l2) = (sessions_of_task k l1 ++ sessions_of_task k l2)%list.
Proof. apply List.filter_app. Qed.

Lemma sessions_of_task_all k l :
  Forall (fun s => Session.task s = k) l -> sessions_of_task k l = l.
Proof.
  unfold sessions_of_task. induction 1 as [|s l Hs _ IH]; simpl; [done|].
  by rewrite bool_decide_eq_true_2, IH.
Qed.

Lemma sessions_of_task_none k k' l :
  k' <> k -> Forall (fun s => Session.task s = k') l -> sessions_of_task k l = [].
Proof.
  unfold sessions_of_task. intros Hk. induction 1 as [|s l Hs _ IH]; simpl; [done|].
  rewrite bool_decide_eq_false_2, IH; [done|congruence].
Qed.

(** The sessions of one task among the sessions of a list of tasks whose
    keys are distinct and whose sessions carry their key. *)
Lemma sessions_of_task_concat k (kvs : list (string * Task.t)) :
  NoDup kvs.*1 ->
  Forall (fun kv => Forall (fun s => Session.task s = kv.1) (Task.sessions kv.2)) kvs ->
  sessions_of_task k (concat (Task.sessions <$> kvs.*2))
  = match list_find (fun kv => kv.1 = k) kvs with
    | Some (_, kv) => Task.sessions kv.2
    | None => []
    end.
Proof.
  induction kvs as [|[k' t] kvs IH]; [done|].
  intros [Hnotin Hnd]%NoDup_cons [Hs Hall]%Forall_cons. simpl in Hnotin, Hs.
  rewrite !fmap_cons, concat_cons, sessions_of_task_app, IH by done.
  simpl. case_decide as Hk.
  - subst k'. rewrite sessions_of_task_all by done.
    destruct (list_find _ kvs) as [[i kv]|] eqn:Hf; simpl; [|by rewrite app_nil_r].
    apply list_find_Some in Hf as (Hi & Hkv & _). exfalso. apply Hnotin.
    apply list_elem_of_fmap. exists kv. split; [done|]. by eapply list_elem_of_lookup_2.
  - rewrite (sessions_of_task_none k k') by done. simpl.
    by destruct (list_find _ kvs) as [[i kv]|].
Qed.

Lemma sessions_of_task_store k ts :
  store_ok ts ->
  sessions_of_task k (allSessions ts)
  = match ts !! k with Some task => Task.sessions task | None => [] end.
Proof.
  intros Hok. unfold allSessions, Object_values.
  rewrite sessions_of_task_concat.
  - destruct (list_find _ (map_to_list ts)) as [[i [k' t]]|] eqn:Hf.
    + apply list_find_Some in Hf as (Hi & Hkv & _). simpl in *. subst k'.
      apply list_elem_of_lookup_2, elem_of_map_to_list in Hi. by rewrite Hi.
    + destruct (ts !! k) as [task|] eqn:Hk; [|done].
      apply elem_of_map_to_list in Hk.
      eapply list_find_None, Forall_forall in Hf; [|exact Hk]. done.
  - apply NoDup_fst_map_to_list.
  - apply Forall_forall. intros [k' t] Hkv%elem_of_map_to_list.
    by destruct (Hok _ _ Hkv) as (_ & _ & _ & ?).
Qed.

Lemma group_total_spec k l (F : string -> Z) :
  NoDup (Group.name <$> l) ->
  (forall g, g ∈ l -> Group.totalTime g = F (Group.name g)) ->
  group_total k l = if bool_decide (k ∈ Group.name <$> l) then F k else 0.
Proof.
  unfold group_total. induction l as [|g l IH]; [done|].
  intros [Hnotin Hnd]%NoDup_cons Hall.
  assert (forall g', g' ∈ l -> Group.totalTime g' = F (Group.name g')) as Hall'
    by (intros g' ?; apply Hall; by right).
  specialize (IH Hnd Hall'). rewrite fmap_cons. cbn [List.filter].
  destruct (decide (Group.name g = k)) as [<-|Hk].
  - rewrite bool_decide_eq_true_2 by done.
    rewrite (bool_decide_eq_false_2 _ Hnotin) in IH.
    rewrite (bool_decide_eq_true_2 (Group.name g ∈ Group.name g :: (Group.name <$> l)))
      by left.
    simpl. rewrite IH, Hall by left. lia.
  - rewrite bool_decide_eq_false_2 by done. rewrite IH.
    destruct (decide (k ∈ Group.name <$> l)) as [Hin|Hin].
    + rewrite !bool_decide_eq_true_2; [done|by right|done].
    + rewrite !bool_decide_eq_false_2; [done| |done].
      intros [?|?]%elem_of_cons; congruence.
Qed.

Lemma report_group_total ts lo hi ivs r k :
  report ts lo hi ivs = Some r ->
  group_total k (Report.tasks r)
  = sum_durations
      (sessions_of_task k (filterSessionsByDateRange (allSessions ts) lo hi)).
Proof.
  intros Hr. destruct (report_tasks_spec _ _ _ _ _ Hr) as (_ & Hnd & Hg & Hall).
  rewrite (group_total_spec k _
             (fun k => sum_durations
                (sessions_of_task k (filterSessionsByDateRange (allSessions ts) lo hi))))
    by (done || intros g Hin; destruct (Hg g Hin) as (<- & _ & ->); done).
  destruct (decide (k ∈ Group.name <$> Report.tasks r)) as [Hin|Hin].
  - by rewrite bool_decide_eq_true_2.
  - rewrite bool_decide_eq_false_2 by done.
    destruct (sessions_of_task k _) as [|s l] eqn:Hs; [done|]. exfalso. apply Hin.
    assert (s ∈ sessions_of_task k (filterSessionsByDateRange (allSessions ts) lo hi))
      as Hmem by (rewrite Hs; left).
    unfold sessions_of_task in Hmem.
    apply list_elem_of_In, List.filter_In in Hmem as [Hmem Hk].
    apply bool_decide_eq_true in Hk. apply list_elem_of_In in Hmem.
    destruct (Hall s Hmem) as (g & Hgin & Hname).
    apply list_elem_of_fmap. exists g. split; [congruence|done].
Qed.

(** X19.  The time a goal is measured against is the time the report of
    the same period shows for the task: [getActualTimeForPeriod] equals the
    total of the task's group in the ranking of the daily, weekly, monthly
    or yearly report of the same date (0 when the task has no group). *)
Theorem goal_time_agrees_with_report ops taskId period targetDate :
  let ts := tasks (run ops initial_store) in
  exists r,
    match period with
    | daily => getDailyAnalytics targetDate ts
    | weekly => getWeeklyAnalytics targetDate ts
    | monthly => getMonthlyAnalytics targetDate ts
    | yearly => getYearlyAnalytics targetDate ts
    end = Some r
    /\ getActualTimeForPeriod taskId period targetDate ts
       = group_total taskId (Report.tasks r).
Proof.
  intros ts. assert (store_ok ts) as Hok by apply reachable_ok.
  set (range := getTimeRangeForPeriod period targetDate).
  assert (forall ivs r, report ts range.1 range.2 ivs = Some r ->
            getActualTimeForPeriod taskId period targetDate ts
            = group_total taskId (Report.tasks r)) as Hagree.
  { intros ivs r Hr. rewrite (report_group_total _ _ _ _ _ _ Hr).
    rewrite sessions_of_task_filter, sessions_of_task_store by done.
    unfold getActualTimeForPeriod, getTask, JS.get. fold range.
    destruct (ts !! taskId) as [task|]; [done|].
    by destruct (JS.inherited taskId). }
  destruct period; simpl in *.
  - destruct (report_groups ts (startOfDay targetDate) (endOfDay targetDate) [] Hok)
      as (r & Hr & _).
    exists r. split; [done|]. by eapply Hagree.
  - destruct (report_groups ts (startOfWeek targetDate) (endOfWeek targetDate)
                (days_of_week (startOfWeek targetDate) (endOfWeek targetDate)) Hok)
      as (r & Hr & _).
    exists r. split; [done|]. by eapply Hagree.
  - destruct (report_groups ts (startOfMonth targetDate) (endOfMonth targetDate)
                (weeks_of_month (startOfMonth targetDate) (endOfMonth targetDate)) Hok)
      as (r & Hr & _).
    exists r. split; [done|]. by eapply Hagree.
  - destruct (report_groups ts (startOfYear targetDate) (endOfYear targetDate)
                (months_of_year (startOfYear targetDate) (endOfYear targetDate)) Hok)
      as (r & Hr & _).
    exists r. split; [done|]. by eapply Hagree.
Qed.


Lemma mapM_total {A B} (f : A -> option B) (R : A -> B -> Prop) l :
  Forall (fun x => exists y, f x = Some y /\ R x y) l ->
  exists k, mapM f l = Some k /\ Forall2 R l k.
Proof.
  induction 1 as [|x l (y & Hy & HR) _ (k & Hk & HF)].
  - by exists [].
  - exists (y :: k). simpl. rewrite Hy. simpl. rewrite Hk. simpl.
    split; [done|]. by constructor.
Qed.

Lemma Period_of_name_valid period :
  isValidGoalPeriod period = true ->
  exists p, Period_of_name period = Some p /\ Period_name p = period.
Proof.
  unfold isValidGoalPeriod, VALID_PERIODS. intros Hv%bool_decide_eq_true.
  repeat (apply elem_of_cons in Hv as [->|Hv]; [eexists; split; reflexivity|]).
  by apply not_elem_of_nil in Hv.
Qed.

(** X24.  The goal status of a task in the store any sequence of operations
    leaves: [getTaskGoalStatus] returns an entry for every stored goal of
    the task, in the order of the goals' keys; no entry's progress is null,
    every goal is positive and for one of the four periods, and the progress
    reports that goal and the time tracked in the current period. *)
Theorem goal_status_complete ops taskId now :
  let ts := tasks (run ops initial_store) in
  exists l,
    getTaskGoalStatus taskId now ts = Some l
    /\ Forall2
         (fun entry status =>
            status.1 = entry
            /\ 0 < entry.2
            /\ exists period gp,
                Period_name period = entry.1
                /\ status.2 = Some gp
                /\ gp_period gp = period
                /\ goalTime gp = entry.2
                /\ actualTime gp = getActualTimeForPeriod taskId period now ts)
         (map_to_list (getTaskGoals taskId ts)) l.
Proof.
  intros ts. unfold getTaskGoalStatus. apply mapM_total, Forall_forall.
  intros [period d] Hentry%elem_of_map_to_list.
  assert (isValidGoalPeriod period = true /\ 0 < d) as [Hvalid Hpos].
  { pose proof (run_goals_ok ops initial_store (map_Forall_empty _)) as Hgoals.
    fold ts in Hgoals. rewrite getTaskGoals_lookup in Hentry.
    destruct (ts !! taskId) as [task|] eqn:Ht; simpl in Hentry; [|done].
    specialize (Hgoals _ _ Ht). simpl in Hgoals. unfold goals_ok in Hgoals.
    destruct (Task.goals task) as [tg|]; simpl in Hentry; [|done].
    destruct Hgoals as [_ Hall]. exact (Hall _ _ Hentry). }
  destruct (Period_of_name_valid _ Hvalid) as (p & Hp & Hname).
  unfold goal_status. simpl. rewrite Hp. eexists. split; [done|]. simpl.
  split; [done|]. split; [done|]. exists p.
  unfold getGoalProgress. rewrite Hname, Hentry.
  destruct (d =? 0) eqn:Hd; [apply Z.eqb_eq in Hd; lia|]. eexists. by repeat split.
Qed.

End WithCalendar.

Lemma fold_left_totalTime l : forall a,
  Forall (fun task => Task.totalTime task = sum_durations (Task.sessions task)) l ->
  fold_left (fun sum task => sum + Task.totalTime task) l a
  = a + sum_durations (concat (Task.sessions <$> l)).
Proof.
  induction l as [|t l IH]; intros a Hall; [simpl; lia|].
  apply Forall_cons in Hall as [Ht Hall].
  rewrite fmap_cons, concat_cons, sum_durations_app. cbn [fold_left].
  rewrite IH by done. lia.
Qed.

Lemma map_ext_Forall {A B} (f g : A -> B) l :
  Forall (fun x => f x = g x) l -> List.map f l = g <$> l.
Proof. induction 1 as [|x l Hx _ IH]; simpl; [done|]. by rewrite Hx, IH. Qed.

(** X20.  The task summary over the store any sequence of operations
    leaves: [totalTimeAllTasks] is the total duration of all recorded
    sessions, the ranking is in descending order of total time, and it has
    one entry per task, with the task's name, the total duration and the
    number of its sessions, and its share of the whole. *)
Theorem task_summary_ranking ops :
  let ts := tasks (run ops initial_store) in
  let summary := getTaskSummary ts in
  summary.2 = sum_durations (allSessions ts)
  /\ Sorted.StronglySorted (fun a b => Ranked.totalTime b <= Ranked.totalTime a)
                           summary.1
  /\ summary.1
     ≡ₚ (fun task =>
           Ranked.mk (Task.name task) (sum_durations (Task.sessions task))
             (if 0 <? summary.2
              then percentage_of (sum_durations (Task.sessions task)) summary.2
              else 0)
             (length (Task.sessions task)))
        <$> Object_values ts.
Proof.
  intros ts. assert (store_ok ts) as Hok by apply reachable_ok.
  assert (Forall (fun task => Task.totalTime task = sum_durations (Task.sessions task))
                 (Object_values ts)) as Hall.
  { apply Forall_forall. intros t Ht. unfold Object_values in Ht.
    apply list_elem_of_fmap in Ht as ([k t'] & -> & Hkt%elem_of_map_to_list).
    by destruct (Hok _ _ Hkt) as (_ & _ & ? & _). }
  unfold getTaskSummary, allSessions. cbv zeta.
  destruct (Object_values ts) as [|t l] eqn:Hv.
  - simpl. split; [done|]. split; [constructor|done].
  - rewrite <-Hv in *. clear Hv. cbn [fst snd].
    rewrite fold_left_totalTime by done. rewrite Z.add_0_l.
    split; [done|]. split.
    + apply sort_by_sorted.
      * intros a b Hab. by apply Z.leb_le.
      * intros a b Hab. apply Z.leb_gt in Hab. lia.
      * intros a b c ??. lia.
    + rewrite sort_by_perm. erewrite map_ext_Forall; [done|].
      eapply Forall_impl; [exact Hall|]. intros task Htask. simpl.
      by rewrite Htask.
Qed.

End Reports.

Section ReportsWit.
Import TaskManager Goals Analytics Utc.

Lemma monthly_weeks_additive_witness :
  exists r,
    getMonthlyAnalytics Sample.now (tasks (run Sample.a_week initial_store)) = Some r
    /\ length (Report.breakdown r)
       = length (eachWeekOfInterval (startOfMonth Sample.now) (endOfMonth Sample.now))
    /\ sum_buckets (Report.breakdown r) = Report.totalTime r
    /\ sum_groups (Report.tasks r) = Report.totalTime r.
Proof.
  apply (monthly_weeks_additive Sample.a_week Sample.now). vm_compute. reflexivity.
Defined.

Lemma weekly_day_is_daily_report_witness :
  exists rw rd b,
    getWeeklyAnalytics Sample.now (tasks (run Sample.a_week initial_store)) = Some rw
    /\ getDailyAnalytics (startOfDay (Sample.now - 24 * Sample.hour))
         (tasks (run Sample.a_week initial_store)) = Some rd
    /\ b ∈ Report.breakdown rw
    /\ Bucket.first b = startOfDay (startOfDay (Sample.now - 24 * Sample.hour))
    /\ Bucket.last b = endOfDay (startOfDay (Sample.now - 24 * Sample.hour))
    /\ Bucket.totalTime b = Report.totalTime rd
    /\ sort_desc (Object_values (Bucket.tasks b)) = Report.tasks rd.
Proof.
  apply (weekly_day_is_daily_report Sample.a_week Sample.now
           (startOfDay (Sample.now - 24 * Sample.hour))).
  - vm_compute. do 2 right. left.
  - vm_compute. discriminate.
  - vm_compute. discriminate.
Defined.

End ReportsWit.

(** ** The command line *)

Section CommandLine.
Import TaskManager TimeTracker Goals.

Lemma is_digit_value c :
  is_digit c = true -> 0 <= Z.of_nat (nat_of_ascii c) - 48 <= 9.
Proof. unfold is_digit. intros [?%Z.leb_le ?%Z.leb_le]%andb_prop. lia. Qed.

Lemma take_digits_spec s : forall ds rest,
  take_digits s = (ds, rest) ->
  Forall (fun c => is_digit c = true) ds
  /\ String.length s = (length ds + String.length rest)%nat.
Proof.
  induction s as [|c s IH]; intros ds rest; simpl.
  - intros [= <- <-]. by split.
  - destruct (is_digit c) eqn:Hc.
    + destruct (take_digits s) as [ds' rest'] eqn:Ht. intros [= <- <-].
      destruct (IH _ _ eq_refl) as [Hall Hlen]. split; [by constructor|].
      simpl. lia.
    + intros [= <- <-]. by split.
Qed.

Lemma digits_fold_bound ds : forall acc,
  Forall (fun c => is_digit c = true) ds ->
  0 <= acc ->
  0 <= fold_left (fun acc c => acc * 10 + (Z.of_nat (nat_of_ascii c) - 48)) ds acc
    < (acc + 1) * 10 ^ Z.of_nat (length ds).
Proof.
  induction ds as [|c ds IH]; intros acc Hall Hacc.
  - simpl. lia.
  - apply Forall_cons in Hall as [Hc%is_digit_value Hall].
    cbn [fold_left length]. rewrite Nat2Z.inj_succ, Z.pow_succ_r by lia.
    specialize (IH (acc * 10 + (Z.of_nat (nat_of_ascii c) - 48)) Hall).
    assert (0 < 10 ^ Z.of_nat (length ds)) by (apply Z.pow_pos_nonneg; lia).
    nia.
Qed.

Lemma parse_group_spec unit s v rest :
  parse_group unit s = (v, rest) ->
  0 <= v
  /\ 10 * v <= 10 ^ Z.of_nat (String.length s)
  /\ (String.length rest <= String.length s)%nat.
Proof.
  assert (0 < 10 ^ Z.of_nat (String.length s)) as Hpow
    by (apply Z.pow_pos_nonneg; lia).
  unfold parse_group.
  destruct (take_digits s) as [ds after] eqn:Ht.
  destruct (take_digits_spec _ _ _ Ht) as [Hall Hlen].
  destruct ds as [|d ds]; [intros [= <- <-]; lia|].
  destruct after as [|c after]; [intros [= <- <-]; lia|].
  case_bool_decide; [|intros [= <- <-]; lia].
  intros [= <- <-].
  pose proof (digits_fold_bound (d :: ds) 0 Hall (Z.le_refl 0)) as Hv.
  fold (digits_value (d :: ds)) in Hv.
  simpl String.length in Hlen. rewrite Hlen.
  replace (Z.of_nat (length (d :: ds) + S (String.length after)))
    with (Z.succ (Z.of_nat (length (d :: ds)) + Z.of_nat (String.length after)))
    by lia.
  rewrite Z.pow_succ_r, Z.pow_add_r by lia.
  assert (0 < 10 ^ Z.of_nat (length (d :: ds))) by (apply Z.pow_pos_nonneg; lia).
  assert (1 <= 10 ^ Z.of_nat (String.length after))
    by (pose proof (Z.pow_pos_nonneg 10 (Z.of_nat (String.length after))); lia).
  split; [lia|]. split; [nia|lia].
Qed.

Lemma parseDuration_spec durationStr d :
  (String.length durationStr <= 10)%nat ->
  parseDuration durationStr = Some d ->
  0 < d < 2 ^ 53 /\ d mod 1000 = 0.
Proof.
  intros Hlen. unfold parseDuration.
  destruct (parse_group "h" durationStr) as [hours s1] eqn:Hh.
  destruct (parse_group "m" s1) as [minutes s2] eqn:Hm.
  destruct (parse_group "s" s2) as [seconds s3] eqn:Hs.
  apply parse_group_spec in Hh as (Hh0 & Hh & Hl1).
  apply parse_group_spec in Hm as (Hm0 & Hm & Hl2).
  apply parse_group_spec in Hs as (Hs0 & Hs & Hl3).
  destruct (negb _); [done|].
  destruct ((hours =? 0) && (minutes =? 0) && (seconds =? 0)) eqn:Hz; [done|].
  intros [= <-].
  assert (forall n, (n <= 10)%nat -> 10 ^ Z.of_nat n <= 10 ^ 10) as Hpow
    by (intros n Hn; apply Z.pow_le_mono_r; lia).
  pose proof (Hpow (String.length durationStr) Hlen).
  pose proof (Hpow (String.length s1) ltac:(lia)).
  pose proof (Hpow (String.length s2) ltac:(lia)).
  split; [|by rewrite Z.mod_mul].
  assert (~ (hours = 0 /\ minutes = 0 /\ seconds = 0)) as Hnz.
  { intros (-> & -> & ->). discriminate Hz. }
  change (10 ^ 10) with 10000000000 in *. change (2 ^ 53) with 9007199254740992.
  lia.
Qed.

(** X21.  [parseDuration] on a duration string of at most ten characters
    returns null or a positive whole number of seconds in milliseconds,
    below 2^53 (where the arithmetic of the source is exact). *)
Theorem parseDuration_range durationStr d :
  (String.length durationStr <= 10)%nat ->
  parseDuration durationStr = Some d ->
  0 < d < 2 ^ 53 /\ d mod 1000 = 0.
Proof. apply parseDuration_spec. Qed.

Lemma parseDuration_range_witness :
  0 < 5400000 < 2 ^ 53 /\ 5400000 mod 1000 = 0.
Proof.
  apply (parseDuration_range "1h30m" 5400000); [vm_compute; lia | reflexivity].
Defined.

(** X22.  [goals --set <task> --time <duration>] with a duration string of
    at most ten characters never reaches the error 'Goal duration must be
    positive'.  The branch is taken exactly when both options are given
    and non-empty; it then reports an invalid duration format and leaves
    the store alone exactly when [parseDuration] returns null, and every
    other failure is an invalid period or a missing task, with the store
    unchanged. *)
Theorem cli_goals_set_outcome set period time ts :
  (String.length (default "" time) <= 10)%nat ->
  match cli_goals_set set period time ts with
  | None => JS.truthy_str set = None \/ JS.truthy_str time = None
  | Some (outcome, ts') =>
      exists task durationStr,
        set = Some task /\ task <> ""
        /\ time = Some durationStr /\ durationStr <> ""
        /\ match outcome with
           | InvalidDurationFormat => ts' = ts /\ parseDuration durationStr = None
           | SetGoalResult (Failure e) =>
               ts' = ts
               /\ (e = InvalidGoalPeriod /\ isValidGoalPeriod period = false
                   \/ e = TaskDoesNotExist task /\ getTask task ts = JS.Undefined)
           | SetGoalResult (Success isUpdate) =>
               exists d,
                 parseDuration durationStr = Some d /\ 0 < d
                 /\ setGoal task period d ts = (Success isUpdate, ts')
           end
  end.
Proof.
  intros Hlen. unfold cli_goals_set.
  destruct (JS.truthy_str set) as [task|] eqn:Hset; [|by left].
  destruct (JS.truthy_str time) as [durationStr|] eqn:Htime; [|by right].
  apply truthy_str_Some in Hset as [-> Htask].
  apply truthy_str_Some in Htime as [-> Hstr]. simpl in Hlen.
  destruct (parseDuration durationStr) as [d|] eqn:Hd;
    [|by exists task, durationStr].
  destruct (parseDuration_spec _ _ Hlen Hd) as [[Hpos _] _].
  destruct (d =? 0) eqn:Hz; [apply Z.eqb_eq in Hz; lia|].
  destruct (setGoal task period d ts) as [r ts'] eqn:Hsg.
  exists task, durationStr. do 4 (split; [done|]).
  destruct r as [isUpdate|e]; [by exists d|].
  revert Hsg. unfold setGoal.
  destruct (isValidGoalPeriod period); simpl; [|intros [= <- <-]; auto].
  destruct (d <=? 0) eqn:Hle; [apply Z.leb_le in Hle; lia|].
  destruct (getTask task ts) eqn:Hget; simpl.
  - unfold getTask in Hget. destruct (JS.get (loadGoals ts) task); done.
  - unfold getTask in Hget. destruct (JS.get (loadGoals ts) task); done.
  - intros [= <- <-]. auto.
Qed.

Lemma cli_goals_set_outcome_witness :
  match cli_goals_set (Some "coding") "daily" (Some "1h30m")
          (tasks (run Sample.a_week initial_store)) with
  | None => JS.truthy_str (Some "coding") = None \/ JS.truthy_str (Some "1h30m") = None
  | Some (outcome, ts') =>
      exists task durationStr,
        Some "coding" = Some task /\ task <> ""
        /\ Some "1h30m" = Some durationStr /\ durationStr <> ""
        /\ match outcome with
           | InvalidDurationFormat =>
               ts' = tasks (run Sample.a_week initial_store)
               /\ parseDuration durationStr = None
           | SetGoalResult (Failure e) =>
               ts' = tasks (run Sample.a_week initial_store)
               /\ (e = InvalidGoalPeriod /\ isValidGoalPeriod "daily" = false
                   \/ e = TaskDoesNotExist task
                      /\ getTask task (tasks (run Sample.a_week initial_store))
                         = JS.Undefined)
           | SetGoalResult (Success isUpdate) =>
               exists d,
                 parseDuration durationStr = Some d /\ 0 < d
                 /\ setGoal task "daily" d (tasks (run Sample.a_week initial_store))
                    = (Success isUpdate, ts')
           end
  end.
Proof.
  apply (cli_goals_set_outcome (Some "coding") "daily" (Some "1h30m")
           (tasks (run Sample.a_week initial_store))).
  vm_compute. lia.
Defined.

(** X25.  [start <task>] with a task argument never fails for a missing
    task: it starts tracking (creating the task when there is none), or
    fails because the name is empty or invalid, leaving everything as it
    was, or because a task is already being tracked, leaving the tracking
    record as it was. *)
Theorem cli_start_outcomes task nowCreate nowStart st r st' :
  cli_start task nowCreate nowStart st = Some (r, st') ->
  match r with
  | Success t =>
      t = nowStart
      /\ Tracking.currentTask (tracking st') = Some task
      /\ Tracking.startTime (tracking st') = Some nowStart
      /\ JS.truthy (getTask task (tasks st')) = true
  | Failure TaskNameEmpty | Failure TaskNameInvalid => st' = st
  | Failure (AlreadyTracking current) =>
      JS.truthy_str (Tracking.currentTask (tracking st)) = Some current
      /\ tracking st' = tracking st
  | Failure _ => False
  end.
Proof.
  assert (forall s, JS.truthy (getTask task (tasks s)) = true ->
            startTracking task nowStart s = (r, st') ->
            match r with
            | Success t =>
                t = nowStart
                /\ Tracking.currentTask (tracking st') = Some task
                /\ Tracking.startTime (tracking st') = Some nowStart
                /\ JS.truthy (getTask task (tasks st')) = true
            | Failure (AlreadyTracking current) =>
                JS.truthy_str (Tracking.currentTask (tracking s)) = Some current
                /\ tracking st' = tracking s
            | Failure _ => False
            end) as Hstart.
  { intros s Hex. unfold startTracking. rewrite Hex. simpl.
    destruct (JS.truthy_str (Tracking.currentTask (tracking s))) as [current|] eqn:Hc.
    - by intros [= <- <-].
    - by intros [= <- <-]. }
  unfold cli_start. case_bool_decide as Hempty; [done|].
  destruct (JS.truthy (getTask task (tasks st))) eqn:Hex.
  - intros [= Hs]. specialize (Hstart st Hex Hs).
    destruct r as [t|e]; [done|]. by destruct e.
  - destruct (createTask_cases task nowCreate (tasks st))
      as [[e Hfail]|(Hvalid & Hnone & Hinh & Hcreate)].
    + rewrite Hfail. intros [= <- <-].
      revert Hfail. unfold createTask.
      destruct (bool_decide (task = "") || JS.trim_is_empty task); [by intros [= <-]|].
      destruct (isValidTaskName task); simpl; [|by intros [= <-]].
      unfold getTask in Hex. rewrite Hex. done.
    + rewrite Hcreate. intros [= Hs].
      eapply Hstart in Hs.
      * destruct r as [t|e]; [done|]. by destruct e.
      * simpl. unfold getTask, JS.get. by rewrite lookup_insert_eq.
Qed.

Lemma cli_start_outcomes_witness :
  1 = 1
  /\ Tracking.currentTask
       (tracking (mkStore {["coding" := Task.mk "coding" "coding" 0 0 [] None]}
                    (Tracking.mk (Some "coding") (Some 1) None false [])))
     = Some "coding"
  /\ Tracking.startTime
       (tracking (mkStore {["coding" := Task.mk "coding" "coding" 0 0 [] None]}
                    (Tracking.mk (Some "coding") (Some 1) None false [])))
     = Some 1
  /\ JS.truthy
       (getTask "coding"
          (tasks (mkStore {["coding" := Task.mk "coding" "coding" 0 0 [] None]}
                    (Tracking.mk (Some "coding") (Some 1) None false []))))
     = true.
Proof.
  apply (cli_start_outcomes "coding" 0 1 initial_store (Success 1)
           (mkStore {["coding" := Task.mk "coding" "coding" 0 0 [] None]}
              (Tracking.mk (Some "coding") (Some 1) None false []))).
  reflexivity.
Defined.

(** X26.  [start <task>] with the name of a task that does not exist,
    while another task is being tracked: the command fails with 'Already
    tracking', and the new task has been created all the same. *)
Theorem cli_start_creates_although_tracking task nowCreate nowStart st current :
  JS.truthy_str (Tracking.currentTask (tracking st)) = Some current ->
  isValidTaskName task = true ->
  getTask task (tasks st) = JS.Undefined ->
  cli_start task nowCreate nowStart st
  = Some (Failure (AlreadyTracking current),
          mkStore (<[task := Task.mk task task nowCreate 0 [] None]> (tasks st))
                  (tracking st)).
Proof.
  intros Hcur Hvalid Hget. unfold cli_start.
  rewrite bool_decide_eq_false_2 by (by apply valid_name_nonempty).
  rewrite Hget. simpl.
  assert (JS.truthy (JS.get (tasks st) task) = false) as Hfalsy
    by (unfold getTask in Hget; by rewrite Hget).
  destruct (get_falsy _ _ Hfalsy) as [Hnone Hinh].
  destruct (createTask_cases task nowCreate (tasks st))
    as [[e Hfail]|(_ & _ & _ & Hcreate)].
  - destruct (createTask_fresh task nowCreate (tasks st) Hvalid Hnone Hinh)
      as (ts' & Hok & _). congruence.
  - rewrite Hcreate. unfold startTracking. simpl.
    unfold getTask, JS.get. rewrite lookup_insert_eq. simpl. by rewrite Hcur.
Qed.

Lemma cli_start_creates_although_tracking_witness :
  cli_start "email" 5 6 (run [DoCreateTask "coding" 0; DoStartTracking "coding" 1]
                             initial_store)
  = Some (Failure (AlreadyTracking "coding"),
          mkStore (<["email" := Task.mk "email" "email" 5 0 [] None]>
                     (tasks (run [DoCreateTask "coding" 0; DoStartTracking "coding" 1]
                                 initial_store)))
                  (tracking (run [DoCreateTask "coding" 0; DoStartTracking "coding" 1]
                                 initial_store))).
Proof.
  apply (cli_start_creates_although_tracking "email" 5 6
           (run [DoCreateTask "coding" 0; DoStartTracking "coding" 1] initial_store)
           "coding"); reflexivity.
Defined.

End CommandLine.
